(** * KressATC: automatic tool changer of FluidNC

  A shallow embedding of [FluidNC/src/Spindles/KressATC.cpp] and the
  properties of its tool-change state machine.

  The controller is sequential C++ that mutates its own members and the
  global machine state ([gc_state], [sys], [lastAlarm], [probe_steps]),
  drives three output pins and submits G-code lines.  It is modelled by a
  state monad over a [World]; every G-code line, pin operation and planner
  barrier is appended to a history, stamped with the spindle's modal state
  and with [current_tool] at the moment it is issued. *)

From Stdlib Require Import List String ZArith NArith Bool Lia.
Import ListNotations.
Local Open Scope string_scope.
Local Open Scope N_scope.

(** ** Enumerations of the firmware (declared in headers the file includes) *)

Inductive Distance : Type := Absolute | Incremental.

Inductive SpindleState : Type := Disable | Cw | Ccw.

Inductive State : Type :=
Idle | Alarm | CheckMode | Homing | Cycle | Hold | Jog | SafetyDoor | Sleep | ConfigAlarm.

Inductive ExecAlarm : Type :=
| NoAlarm | HardLimit | SoftLimit | AbortCycle | ProbeFailInitial | ProbeFailContact
| HomingFailReset | HomingFailDoor | HomingFailPulloff | HomingFailApproach | SpindleControl.

Inductive Axis : Type := X_AXIS | Y_AXIS | Z_AXIS.

Inductive PinId : Type := atc_valve_pin | atc_dustoff_pin | toolsetter_dustoff.

Inductive LogLevel : Type := LogDebug | LogInfo | LogWarn | LogError.

Definition Distance_eqb (a b : Distance) : bool :=
match a, b with
| Absolute, Absolute | Incremental, Incremental => true
| _, _ => false
end.

Definition SpindleState_eqb (a b : SpindleState) : bool :=
match a, b with
| Disable, Disable | Cw, Cw | Ccw, Ccw => true
| _, _ => false
end.

Definition is_Alarm (s : State) : bool :=
match s with Alarm => true | _ => false end.

Definition is_ProbeFailInitial (a : ExecAlarm) : bool :=
match a with ProbeFailInitial => true | _ => false end.

Definition PinId_eqb (a b : PinId) : bool :=
match a, b with
| atc_valve_pin, atc_valve_pin
| atc_dustoff_pin, atc_dustoff_pin
| toolsetter_dustoff, toolsetter_dustoff => true
| _, _ => false
end.

(** ** Arithmetic of [float]

  The code adds and subtracts [float] values and hands them to the G-code
  formatter.  Nothing proved below depends on how these operations round,
  so the type and its operations stay abstract. *)

Class FloatOps : Type := {
float : Type;
fadd : float -> float -> float;
fsub : float -> float -> float;
f_0_25 : float;   (* the literal 0.25  *)
f_0_5 : float     (* the literal 0.5   *)
}.

(** ** Data *)

Section Data.
Context {F : FloatOps}.

(** A [float[MAX_N_AXIS]] array; the code only touches X, Y and Z. *)
Record axes : Type := mk_axes { ax_x : float; ax_y : float; ax_z : float }.

Definition axis_get (a : axes) (i : Axis) : float :=
  match i with X_AXIS => ax_x a | Y_AXIS => ax_y a | Z_AXIS => ax_z a end.

Definition axis_set (a : axes) (i : Axis) (v : float) : axes :=
  match i with
  | X_AXIS => mk_axes v (ax_y a) (ax_z a)
  | Y_AXIS => mk_axes (ax_x a) v (ax_z a)
  | Z_AXIS => mk_axes (ax_x a) (ax_y a) v
  end.

(** [tool_t]: pickup location and measured offset of one slot. *)
Record tool_t : Type := mk_tool { mpos : axes; offset : axes }.

Record coolant_t : Type := mk_coolant { Flood : bool; Mist : bool }.

Record gc_modal_t : Type := mk_modal {
  distance : Distance;
  spindle : SpindleState;
  coolant : coolant_t
}.

(** The fields of [gc_state] that the tool changer reads or writes. *)
Record parser_state_t : Type := mk_parser {
  modal : gc_modal_t;
  coord_system : axes;
  coord_offset : axes;
  tool_length_offset : float
}.

(** Step counters are [int32_t] arrays. *)
Record steps_t : Type := mk_steps { st_x : Z; st_y : Z; st_z : Z }.

(** The global machine state shared with the rest of the firmware. *)
Record Machine : Type := mk_machine {
  gc_state : parser_state_t;
  sys_state : State;
  lastAlarm : ExecAlarm;
  probe_steps : steps_t;
  motor_steps : steps_t
}.

Definition set_coord_offset (m : Machine) (c : axes) : Machine :=
  mk_machine
    (mk_parser (modal (gc_state m)) (coord_system (gc_state m)) c
               (tool_length_offset (gc_state m)))
    (sys_state m) (lastAlarm m) (probe_steps m) (motor_steps m).

Record Pin : Type := mk_pin { pin_defined : bool; pin_name : string }.

(** Configuration items consumed by the tool changer. *)
Record Config : Type := mk_config {
  spindown_ms : N;                       (* spindle->_spindown_ms *)
  pins : PinId -> Pin;
  ets_mpos : list float;                 (* _ets_mpos *)
  tool_mpos : nat -> list float;         (* _tool_mpos[i] *)
  empty_safe_z : float;                  (* _empty_safe_z *)
  limitsMaxPosition_Z : float;           (* limitsMaxPosition(Z_AXIS) *)
  pulloff_Z : float                      (* _axis[Z_AXIS]->_motors[0]->_pulloff *)
}.

(** What the controller does to the outside, in the order it does it. *)
Inductive Event : Type :=
  | EvGcode (sync_after : bool) (fmt : string) (args : list float)
  | EvPinWrite (p : PinId) (v : bool)
  | EvPinAttr (p : PinId)
  | EvSync
  | EvBase (what : string).

(** An event with the spindle's modal state and [current_tool] as they
    were when the event was issued. *)
Record Obs : Type := mk_obs {
  ev : Event;
  at_spindle : SpindleState;
  at_tool : N
}.

(** The members of the controller, the machine and the two histories. *)
Record World : Type := mk_world {
  atc_ok : bool;                  (* _atc_ok *)
  current_tool : N;               (* uint8_t *)
  zeroed_tool_index : N;
  top_of_z : float;
  tool : N -> tool_t;
  tool_setter_probing : bool;
  mach : Machine;
  trace : list Obs;
  logged : list (LogLevel * string)
}.

Definition with_atc_ok (b : bool) (w : World) : World :=
  mk_world b (current_tool w) (zeroed_tool_index w) (top_of_z w) (tool w)
           (tool_setter_probing w) (mach w) (trace w) (logged w).

Definition with_current_tool (n : N) (w : World) : World :=
  mk_world (atc_ok w) n (zeroed_tool_index w) (top_of_z w) (tool w)
           (tool_setter_probing w) (mach w) (trace w) (logged w).

Definition with_zeroed_tool_index (n : N) (w : World) : World :=
  mk_world (atc_ok w) (current_tool w) n (top_of_z w) (tool w)
           (tool_setter_probing w) (mach w) (trace w) (logged w).

Definition with_top_of_z (z : float) (w : World) : World :=
  mk_world (atc_ok w) (current_tool w) (zeroed_tool_index w) z (tool w)
           (tool_setter_probing w) (mach w) (trace w) (logged w).

Definition with_tool (t : N -> tool_t) (w : World) : World :=
  mk_world (atc_ok w) (current_tool w) (zeroed_tool_index w) (top_of_z w) t
           (tool_setter_probing w) (mach w) (trace w) (logged w).

Definition with_tool_setter_probing (b : bool) (w : World) : World :=
  mk_world (atc_ok w) (current_tool w) (zeroed_tool_index w) (top_of_z w) (tool w)
           b (mach w) (trace w) (logged w).

Definition with_mach (m : Machine) (w : World) : World :=
  mk_world (atc_ok w) (current_tool w) (zeroed_tool_index w) (top_of_z w) (tool w)
           (tool_setter_probing w) m (trace w) (logged w).

Definition with_trace (t : list Obs) (w : World) : World :=
  mk_world (atc_ok w) (current_tool w) (zeroed_tool_index w) (top_of_z w) (tool w)
           (tool_setter_probing w) (mach w) t (logged w).

Definition with_logged (l : list (LogLevel * string)) (w : World) : World :=
  mk_world (atc_ok w) (current_tool w) (zeroed_tool_index w) (top_of_z w) (tool w)
           (tool_setter_probing w) (mach w) (trace w) l.

(** [tool[i].mpos[a] = v] and [tool[i].offset[a] = v]. *)
Definition tool_set_mpos (t : N -> tool_t) (i : N) (a : Axis) (v : float) : N -> tool_t :=
  fun j => if j =? i then mk_tool (axis_set (mpos (t i)) a v) (offset (t i)) else t j.

Definition tool_set_offset (t : N -> tool_t) (i : N) (a : Axis) (v : float) : N -> tool_t :=
  fun j => if j =? i then mk_tool (mpos (t i)) (axis_set (offset (t i)) a v) else t j.

Definition spindle_of (w : World) : SpindleState := spindle (modal (gc_state (mach w))).
Definition distance_of (w : World) : Distance := distance (modal (gc_state (mach w))).
End Data.

Arguments spindle_of {F} w /.
Arguments distance_of {F} w /.
Arguments with_atc_ok {F} b w /.
Arguments with_current_tool {F} n w /.
Arguments with_zeroed_tool_index {F} n w /.
Arguments with_top_of_z {F} z w /.
Arguments with_tool {F} t w /.
Arguments with_tool_setter_probing {F} b w /.
Arguments with_mach {F} m w /.
Arguments with_trace {F} t w /.
Arguments with_logged {F} l w /.

(** ** Constants of [KressATC.h] and the collaborators

  The header is not part of the sources at hand, so its constants are
  parameters.  The G-code engine, the planner barrier, the kinematics and
  the base classes are other subsystems: they act on the [Machine] only. *)

Class Header {F : FloatOps} : Type := {
ETS_INDEX : N;
TOOL_COUNT : nat;
NO_TOOL : N;
MANUAL_CHG : N;
TOOL_GRAB_TIME : float;
PROBE_FEEDRATE : float
}.

Class Collaborators {F : FloatOps} : Type := {
(* gc_exec_linef(sync_after, format, args...) *)
gc_execute : bool -> string -> list float -> Machine -> Machine;
buffer_synchronize : Machine -> Machine;
motor_steps_to_mpos : steps_t -> axes;
OnOff_init : Machine -> Machine;
Spindle_activate : Machine -> Machine;
Spindle_deactivate : Machine -> Machine
}.

(** ** The state monad of the controller *)

Section Monad.
Context {F : FloatOps}.

Definition M (A : Type) : Type := World -> A * World.

Definition ret {A : Type} (a : A) : M A := fun w => (a, w).

Definition bind {A B : Type} (m : M A) (k : A -> M B) : M B :=
  fun w => let (a, w') := m w in k a w'.

Definition gets {A : Type} (f : World -> A) : M A := fun w => (f w, w).

Definition modify (f : World -> World) : M unit := fun w => (tt, f w).

Definition when (b : bool) (m : M unit) : M unit := if b then m else ret tt.

End Monad.

(** The state and the value that running [m] from [w] gives. *)
Abbreviation run m w := (snd (m w)) (only parsing).
Abbreviation result m w := (fst (m w)) (only parsing).

Declare Scope atc_scope.
Delimit Scope atc_scope with atc.
Notation "x <- m ;; k" := (bind m (fun x => k))
(at level 100, m at next level, right associativity) : atc_scope.
Notation "m ;; k" := (bind m (fun _ => k))
(at level 100, right associativity) : atc_scope.
Local Open Scope atc_scope.

(** ** The controller *)

Section Controller.
Context {F : FloatOps} {H : Header} {C : Collaborators}.
Variable cfg : Config.

(** *** Primitives *)

(** Append an event, stamped with the present spindle state and tool. *)
Definition emit (e : Event) : M unit :=
  modify (fun w => with_trace (trace w ++ [mk_obs e (spindle_of w) (current_tool w)]) w).

(** [log_debug], [log_info], [log_warn], [log_error]: the literal text of
    the message is kept, the values streamed into it are not. *)
Definition log_msg (l : LogLevel) (text : string) : M unit :=
  modify (fun w => with_logged (logged w ++ [(l, text)]) w).

Definition log_debug := log_msg LogDebug.
Definition log_info := log_msg LogInfo.
Definition log_warn := log_msg LogWarn.
Definition log_error := log_msg LogError.

Definition on_machine (f : Machine -> Machine) : M unit :=
  modify (fun w => with_mach (f (mach w)) w).

Definition gc_exec_linef (sync_after : bool) (fmt : string) (args : list float) : M unit :=
  emit (EvGcode sync_after fmt args) ;;
  on_machine (gc_execute sync_after fmt args).

Definition protocol_buffer_synchronize : M unit :=
  emit EvSync ;; on_machine buffer_synchronize.

Definition synchronousWrite (p : PinId) (v : bool) : M unit := emit (EvPinWrite p v).

Definition setAttr_Output (p : PinId) : M unit := emit (EvPinAttr p).

(** *** KressATC::is_ATC_ok *)
Definition is_ATC_ok : M bool := gets atc_ok.

(** *** KressATC::goto_top_of_z *)
Definition goto_top_of_z : M unit :=
  top <- gets top_of_z ;;
  gc_exec_linef true "G53 G0 Z%0.3f" [top].

(** *** KressATC::set_ATC_state *)
Definition set_ATC_state (open : bool) : M bool :=
  sp <- gets spindle_of ;;
  if negb (SpindleState_eqb sp Disable) then
    log_error "Spindle active when trying to operate ATC" ;;
    ret false
  else
    synchronousWrite atc_valve_pin open ;;
    ret true.

(** *** KressATC::go_above_tool *)
Definition go_above_tool (tool_num : N) : M unit :=
  goto_top_of_z ;;
  t <- gets tool ;;
  gc_exec_linef false "G53 G0 X%0.3f Y%0.3f"
    [axis_get (mpos (t tool_num)) X_AXIS; axis_get (mpos (t tool_num)) Y_AXIS].

(** *** KressATC::take_tool *)
Definition take_tool (tool_num : N) : M bool :=
  log_debug "Get tool: " ;;
  go_above_tool tool_num ;;
  _ <- set_ATC_state true ;;
  gc_exec_linef true "G4 P%0.2f" [f_0_25] ;;
  t <- gets tool ;;
  gc_exec_linef true "G53 G0 Z%0.3f" [axis_get (mpos (t tool_num)) Z_AXIS] ;;
  gc_exec_linef true "G4 P%0.2f" [f_0_25] ;;
  _ <- set_ATC_state false ;;
  gc_exec_linef true "G4 P%0.2f" [TOOL_GRAB_TIME] ;;
  modify (with_current_tool tool_num) ;;
  goto_top_of_z ;;
  ret true.

(** *** KressATC::return_tool *)
Definition return_tool (tool_num : N) : M bool :=
  log_debug "Return tool: " ;;
  go_above_tool tool_num ;;
  t <- gets tool ;;
  gc_exec_linef true "G53 G0 Z%0.3f" [axis_get (mpos (t tool_num)) Z_AXIS] ;;
  _ <- set_ATC_state true ;;
  gc_exec_linef true "G53 G0 Z%0.3f" [empty_safe_z cfg] ;;
  _ <- set_ATC_state false ;;
  modify (with_current_tool NO_TOOL) ;;
  ret true.

(** *** KressATC::atc_ETS_dustoff *)
Definition atc_ETS_dustoff : M unit :=
  synchronousWrite atc_dustoff_pin true ;;
  gc_exec_linef true "G4 P%0.2f" [f_0_5] ;;
  synchronousWrite atc_dustoff_pin false.

(** *** KressATC::atc_toolsetter_probe

    The body is given in two parts: the statements up to the probing move,
    and those from the comment "Was probe successful?" on. *)

(** Dust-off, approach and the probing move. *)
Definition probing_move : M unit :=
  atc_ETS_dustoff ;;
  goto_top_of_z ;;
  t <- gets tool ;;
  gc_exec_linef true "G53 G0 X%0.3f Y%0.3f"
    [axis_get (mpos (t ETS_INDEX)) X_AXIS; axis_get (mpos (t ETS_INDEX)) Y_AXIS] ;;
  gs <- gets (fun w => gc_state (mach w)) ;;
  let wco := fadd (fadd (axis_get (coord_system gs) Z_AXIS) (axis_get (coord_offset gs) Z_AXIS))
                  (tool_length_offset gs) in
  t <- gets tool ;;
  let probe_to := fsub (axis_get (mpos (t ETS_INDEX)) Z_AXIS) wco in
  modify (with_tool_setter_probing true) ;;
  gc_exec_linef true "G38.2 F%0.3f Z%0.3f" [PROBE_FEEDRATE; probe_to] ;;
  modify (with_tool_setter_probing false).

(** "Was probe successful?" *)
Definition probe_verdict : M bool :=
  st <- gets (fun w => sys_state (mach w)) ;;
  if is_Alarm st then
    la <- gets (fun w => lastAlarm (mach w)) ;;
    log_error (if is_ProbeFailInitial la
               then "ATC Probe Switch Error" else "ATC Probe Missing Tool Error") ;;
    ret false
  else
    probe_position <- gets (fun w => motor_steps_to_mpos (probe_steps (mach w))) ;;
    cur <- gets current_tool ;;
    modify (fun w => with_tool (tool_set_offset (tool w) cur Z_AXIS
                                  (axis_get probe_position Z_AXIS)) w) ;;
    zi <- gets zeroed_tool_index ;;
    when (negb (zi =? 0))
      (t <- gets tool ;;
       cur <- gets current_tool ;;
       let tlo := fsub (axis_get (offset (t cur)) Z_AXIS) (axis_get (offset (t zi)) Z_AXIS) in
       log_info "ATC Tool No: TLO:" ;;
       gc_exec_linef false "G43.1 Z%0.3f" [tlo]) ;;
    goto_top_of_z ;;
    ret true.

Definition atc_toolsetter_probe : M bool :=
  probing_move ;; probe_verdict.

(** *** KressATC::tool_change_manual *)
Definition tool_change_manual (new_tool : N) : M unit :=
  log_info "Manual tool change: Toggle ATC" ;;
  _ <- set_ATC_state true ;;
  gc_exec_linef true "G4 P2.0" [] ;;
  _ <- set_ATC_state false ;;
  modify (with_current_tool new_tool).

(** *** KressATC::tool_preselect *)
Definition tool_preselect (new_tool : N) : M unit :=
  log_warn "Tool preselect not implemented:".

(** The guard of the manual path (the condition of the second [if]). *)
Definition manual_sequence_rejected (cur new_tool : N) : bool :=
  (negb (cur =? NO_TOOL) && negb (new_tool =? NO_TOOL))
  && (negb (cur =? MANUAL_CHG) && negb (new_tool =? MANUAL_CHG)).

(** *** KressATC::tool_change

    The body is given in three parts, divided where the source has its
    banners: validation, snapshot and the manual path ([tool_change]);
    "Start of automated tool change" ([automated_change]); and "return
    old states" ([restore_states]).  The locals of the snapshot are
    passed on as arguments. *)

(** "return old states": the last part of the body, from the snapshot. *)
Definition restore_states (saved_mpos : axes)
           (was_incremental_mode spindle_was_on coolant_state_flood coolant_state_mist : bool)
  : M bool :=
  top <- gets top_of_z ;;
  gc_exec_linef false "G53 G0 X%0.3f Y%0.3f Z%0.3f"
    [axis_get saved_mpos X_AXIS; axis_get saved_mpos Y_AXIS; top] ;;
  when spindle_was_on (gc_exec_linef false "M3" []) ;;
  when coolant_state_mist (gc_exec_linef true "M7" []) ;;
  when coolant_state_flood (gc_exec_linef true "M8" []) ;;
  tlo <- gets (fun w => tool_length_offset (gc_state (mach w))) ;;
  gc_exec_linef false "G53 G0 Z%0.3f" [fadd (axis_get saved_mpos Z_AXIS) tlo] ;;
  d <- gets distance_of ;;
  when (Distance_eqb d Incremental && negb was_incremental_mode)
    (gc_exec_linef false "G90" []) ;;
  d <- gets distance_of ;;
  when (negb (Distance_eqb d Incremental) && was_incremental_mode)
    (gc_exec_linef false "G91" []) ;;
  ret true.

(** "Start of automated tool change". *)
Definition automated_change (new_tool : N) (saved_mpos : axes)
           (was_incremental_mode spindle_was_on coolant_state_flood coolant_state_mist : bool)
  : M bool :=
  when (coolant_state_flood || coolant_state_mist) (gc_exec_linef true "M9" []) ;;
  when spindle_was_on (gc_exec_linef true "M5" []) ;;
  goto_top_of_z ;;
  cur <- gets current_tool ;;
  when (negb (cur =? NO_TOOL)) (_ <- return_tool cur ;; ret tt) ;;
  when (negb (new_tool =? NO_TOOL)) (_ <- take_tool new_tool ;; ret tt) ;;
  probed <- atc_toolsetter_probe ;;
  if negb probed then ret false
  else restore_states saved_mpos was_incremental_mode spindle_was_on
         coolant_state_flood coolant_state_mist.

Definition tool_change (new_tool : N) (pre_select : bool) : M bool :=
  log_debug " tool change to: From: Preselect:" ;;
  ok <- is_ATC_ok ;;
  if negb ok then
    log_error "ATC not initialized, toolchange failed" ;;
    ret false
  else if MANUAL_CHG <? new_tool then
    log_error ":invalid tool number:" ;;
    ret false
  else if pre_select then
    tool_preselect new_tool ;;
    ret true
  else
    protocol_buffer_synchronize ;;
    gs <- gets (fun w => gc_state (mach w)) ;;
    let was_incremental_mode := Distance_eqb (distance (modal gs)) Incremental in
    let spindle_was_on := negb (SpindleState_eqb (spindle (modal gs)) Disable) in
    let coolant_state_flood := Flood (coolant (modal gs)) in
    let coolant_state_mist := Mist (coolant (modal gs)) in
    saved_mpos <- gets (fun w => motor_steps_to_mpos (motor_steps (mach w))) ;;
    cur <- gets current_tool ;;
    if (cur =? MANUAL_CHG) || (new_tool =? MANUAL_CHG) then
      if spindle_was_on then
        log_error "Spindle must not be active for a manual change" ;;
        ret false
      else if manual_sequence_rejected cur new_tool then
        log_error "MANUAL_CHG sequences can only change from or to (NO_TOOL, MANUAL_CHG)" ;;
        ret false
      else
        tool_change_manual new_tool ;;
        ret true
    else
      automated_change new_tool saved_mpos was_incremental_mode spindle_was_on
        coolant_state_flood coolant_state_mist.

(** *** KressATC::atc_init *)

(** The body of the [for] loop over the tool slots, from index [i] on for
    [n] more rounds; [false] is the early [return false]. *)
Fixpoint parse_tool_mpos (n : nat) (i : nat) : M bool :=
  match n with
  | O => ret true
  | S n' =>
      match tool_mpos cfg i with
      | [x; y; z] =>
          modify (fun w => with_tool (tool_set_mpos (tool w) (N.of_nat (i + 1)) X_AXIS x) w) ;;
          modify (fun w => with_tool (tool_set_mpos (tool w) (N.of_nat (i + 1)) Y_AXIS y) w) ;;
          modify (fun w => with_tool (tool_set_mpos (tool w) (N.of_nat (i + 1)) Z_AXIS z) w) ;;
          parse_tool_mpos n' (S i)
      | _ =>
          log_error "ATC Tool mpos wrong. Tool:" ;;
          ret false
      end
  end.

Definition atc_init : M bool :=
  if spindown_ms cfg =? 0 then
    log_error "ATC operation requires a Spindle spindown > 0ms" ;;
    ret false
  else
    setAttr_Output atc_valve_pin ;;
    setAttr_Output atc_dustoff_pin ;;
    setAttr_Output toolsetter_dustoff ;;
    if negb (pin_defined (pins cfg atc_valve_pin)) then
      log_error "ATC:  must be defined" ;;
      ret false
    else
      log_info "ATC Valve:" ;;
      log_info "ATC Dustoff Valve:" ;;
      log_info "ATC Toolsetter Dustoff Valve:" ;;
      modify (with_top_of_z (fsub (limitsMaxPosition_Z cfg) (pulloff_Z cfg))) ;;
      match ets_mpos cfg with
      | [x; y; z] =>
          modify (fun w => with_tool (tool_set_mpos (tool w) ETS_INDEX X_AXIS x) w) ;;
          modify (fun w => with_tool (tool_set_mpos (tool w) ETS_INDEX Y_AXIS y) w) ;;
          modify (fun w => with_tool (tool_set_mpos (tool w) ETS_INDEX Z_AXIS z) w) ;;
          parse_tool_mpos TOOL_COUNT 0%nat
      | _ =>
          log_error "ATC ETS mpos wrong" ;;
          ret false
      end.

(** What [atc_init] requires of the configuration, in one test. *)
Definition config_ok : bool :=
  negb (spindown_ms cfg =? 0)
  && pin_defined (pins cfg atc_valve_pin)
  && (List.length (ets_mpos cfg) =? 3)%nat
  && forallb (fun i => (List.length (tool_mpos cfg i) =? 3)%nat) (seq 0 TOOL_COUNT).

(** *** KressATC::init *)
Definition init : M unit :=
  emit (EvBase "OnOff::init") ;;
  on_machine OnOff_init ;;
  ok <- atc_init ;;
  modify (with_atc_ok ok).

(** *** KressATC::probe_notification *)
Definition probe_notification : M unit :=
  st <- gets (fun w => sys_state (mach w)) ;;
  tsp <- gets tool_setter_probing ;;
  if is_Alarm st || tsp then ret tt
  else
    cur <- gets current_tool ;;
    modify (with_zeroed_tool_index cur).

(** *** KressATC::deactivate *)
Definition deactivate : M unit :=
  log_debug "Deactivating ATC spindle:" ;;
  _ <- tool_change 0 false ;;
  log_info "ETS:" ;;
  log_info "Surface:" ;;
  log_info "Delta:" ;;
  t <- gets tool ;;
  zi <- gets zeroed_tool_index ;;
  on_machine (fun m => set_coord_offset m
                (axis_set (coord_offset (gc_state m)) Z_AXIS
                          (axis_get (offset (t zi)) Z_AXIS))) ;;
  emit (EvBase "Spindle::deactivate") ;;
  on_machine Spindle_deactivate.

(** *** KressATC::activate *)
Definition activate : M unit :=
  log_debug "Activating ATC spindle:" ;;
  emit (EvBase "Spindle::activate") ;;
  on_machine Spindle_activate.

End Controller.

(** ** Observations on histories *)

Section Histories.
Context {F : FloatOps} {H : Header} {C : Collaborators}.

Definition is_gcode (e : Event) : bool :=
  match e with EvGcode _ _ _ => true | _ => false end.

Definition is_pin_write (e : Event) : bool :=
  match e with EvPinWrite _ _ => true | _ => false end.

Definition is_valve_write (e : Event) : bool :=
  match e with EvPinWrite p _ => PinId_eqb p atc_valve_pin | _ => false end.

(** Motion commands and pin writes of a history. *)
Definition actuations (t : list Obs) : list Obs :=
  filter (fun o => is_gcode (ev o) || is_pin_write (ev o)) t.

Definition valve_writes (t : list Obs) : list Obs :=
  filter (fun o => is_valve_write (ev o)) t.

(** Every write to the holder valve happened with the spindle disabled. *)
Definition valve_safeb (t : list Obs) : bool :=
  forallb (fun o => negb (is_valve_write (ev o)) || SpindleState_eqb (at_spindle o) Disable) t.

Definition valve_safe (t : list Obs) : Prop := valve_safeb t = true.

Definition safe_world (w : World) : Prop := valve_safe (trace w).

(** The safe travel height is [z]. *)
Definition top_is (z : float) (w : World) : Prop := top_of_z w = z.

(** [m] keeps the property [P] of the world. *)
Definition preserved {A : Type} (P : World -> Prop) (m : M A) : Prop :=
  forall w, P w -> P (snd (m w)).

(** [m] only extends the log: it issues nothing and changes nothing else. *)
Definition only_logs {A : Type} (m : M A) : Prop :=
  forall w, exists l, snd (m w) = with_logged (logged w ++ l) w.

(** The entry points of the controller, and what the rest of the firmware
    may do to the machine state in between. *)
Inductive Op : Type :=
  | OpInit
  | OpToolChange (new_tool : N) (pre_select : bool)
  | OpProbeNotification
  | OpActivate
  | OpDeactivate
  | OpTakeTool (tool_num : N)
  | OpReturnTool (tool_num : N)
  | OpSetATC (open : bool)
  | OpEnvironment (f : Machine -> Machine).

Definition run_op (cfg : Config) (o : Op) (w : World) : World :=
  match o with
  | OpInit => run (init cfg) w
  | OpToolChange n p => run (tool_change cfg n p) w
  | OpProbeNotification => run probe_notification w
  | OpActivate => run activate w
  | OpDeactivate => run (deactivate cfg) w
  | OpTakeTool n => run (take_tool n) w
  | OpReturnTool n => run (return_tool cfg n) w
  | OpSetATC b => run (set_ATC_state b) w
  | OpEnvironment f => with_mach (f (mach w)) w
  end.

Definition run_ops (cfg : Config) (ops : list Op) (w : World) : World :=
  fold_left (fun w o => run_op cfg o w) ops w.

(** A run of tool-change requests, with the result of each. *)
Fixpoint tool_changes (cfg : Config) (reqs : list (N * bool)) (w : World)
  : list bool * World :=
  match reqs with
  | [] => ([], w)
  | (n, p) :: rest =>
      let (r, w1) := tool_change cfg n p w in
      let (rs, w2) := tool_changes cfg rest w1 in
      (r :: rs, w2)
  end.

(** G-code lines that move or dwell and do nothing else. *)
Definition motion_line (fmt : string) : bool :=
  (fmt =? "G53 G0 Z%0.3f")%string || (fmt =? "G53 G0 X%0.3f Y%0.3f")%string
  || (fmt =? "G4 P%0.2f")%string.

(** What the restoring part of a tool change relies on in the G-code
    engine: G90 and G91 select the distance mode, and these two and a
    rapid move in Z leave the tool length offset alone. *)
Record engine_restores : Prop := {
  exec_G90 : forall b m, distance (modal (gc_state (gc_execute b "G90" [] m))) = Absolute;
  exec_G91 : forall b m, distance (modal (gc_state (gc_execute b "G91" [] m))) = Incremental;
  exec_keeps_tlo : forall b fmt args m,
    fmt = "G53 G0 Z%0.3f" \/ fmt = "G90" \/ fmt = "G91" ->
    tool_length_offset (gc_state (gc_execute b fmt args m)) = tool_length_offset (gc_state m)
}.

(** Moves and dwells do not switch the spindle. *)
Definition engine_moves_keep_spindle : Prop :=
  forall b fmt args m, motion_line fmt = true ->
    spindle (modal (gc_state (gc_execute b fmt args m))) = spindle (modal (gc_state m)).

(** The line M5 stops the spindle, and the line M9 does not switch it. *)
Record engine_stops_spindle : Prop := {
  exec_M5 : forall b args m,
    spindle (modal (gc_state (gc_execute b "M5" args m))) = Disable;
  exec_M9 : forall b args m,
    spindle (modal (gc_state (gc_execute b "M9" args m))) = spindle (modal (gc_state m))
}.

(** What a call of [set_ATC_state] leaves behind, by the spindle's modal
    state: the write in the history, or the refusal in the log. *)
Definition valve_event (sp : SpindleState) (cur : N) (open : bool) : list Obs :=
  if SpindleState_eqb sp Disable then [mk_obs (EvPinWrite atc_valve_pin open) sp cur] else [].

Definition valve_refusal (sp : SpindleState) : list (LogLevel * string) :=
  if SpindleState_eqb sp Disable then []
  else [(LogError, "Spindle active when trying to operate ATC")].

(** The refusals of the interlock in a log. *)
Definition refusals (l : list (LogLevel * string)) : list (LogLevel * string) :=
  filter (fun e => (snd e =? "Spindle active when trying to operate ATC")%string) l.

(** The history of a pickup of tool [n] that is entered in the state [w]
    with the spindle disabled: top of Z, above the slot, open, dwell,
    descend, dwell, close, dwell, and, with [current_tool] set, top of Z. *)
Definition pickup_events (n : N) (w : World) : list Obs :=
  let slot := mpos (tool w n) in
  let before e := mk_obs e Disable (current_tool w) in
  [before (EvGcode true "G53 G0 Z%0.3f" [top_of_z w]);
   before (EvGcode false "G53 G0 X%0.3f Y%0.3f" [axis_get slot X_AXIS; axis_get slot Y_AXIS]);
   before (EvPinWrite atc_valve_pin true);
   before (EvGcode true "G4 P%0.2f" [f_0_25]);
   before (EvGcode true "G53 G0 Z%0.3f" [axis_get slot Z_AXIS]);
   before (EvGcode true "G4 P%0.2f" [f_0_25]);
   before (EvPinWrite atc_valve_pin false);
   before (EvGcode true "G4 P%0.2f" [TOOL_GRAB_TIME]);
   mk_obs (EvGcode true "G53 G0 Z%0.3f" [top_of_z w]) Disable n].

(** The history of a return of tool [n] that is entered in the state [w]
    with the spindle disabled: top of Z, above the slot, descend, open,
    rise to [safe_z], close. *)
Definition return_events (safe_z : float) (n : N) (w : World) : list Obs :=
  let slot := mpos (tool w n) in
  let at_old e := mk_obs e Disable (current_tool w) in
  [at_old (EvGcode true "G53 G0 Z%0.3f" [top_of_z w]);
   at_old (EvGcode false "G53 G0 X%0.3f Y%0.3f" [axis_get slot X_AXIS; axis_get slot Y_AXIS]);
   at_old (EvGcode true "G53 G0 Z%0.3f" [axis_get slot Z_AXIS]);
   at_old (EvPinWrite atc_valve_pin true);
   at_old (EvGcode true "G53 G0 Z%0.3f" [safe_z]);
   at_old (EvPinWrite atc_valve_pin false)].

(** The history [t0] has been extended. *)
Definition grown (t0 : list Obs) (w : World) : Prop :=
  exists l, trace w = (t0 ++ l)%list.

(** The events that give the machine back, from the snapshot
    [(spindle_was_on, mist, flood, saved_mpos)]. *)
Definition power_events (spindle_was_on mist flood : bool) : list Event :=
  (if spindle_was_on then [EvGcode false "M3" []] else [])
  ++ (if mist then [EvGcode true "M7" []] else [])
  ++ (if flood then [EvGcode true "M8" []] else []).

Definition restore_moves (saved : axes) (top tlo : float) (on mist flood : bool) : list Event :=
  [EvGcode false "G53 G0 X%0.3f Y%0.3f Z%0.3f" [axis_get saved X_AXIS; axis_get saved Y_AXIS; top]]
  ++ power_events on mist flood
  ++ [EvGcode false "G53 G0 Z%0.3f" [fadd (axis_get saved Z_AXIS) tlo]].
End Histories.

(** ** A test rig

  A concrete platform on which the model runs: lengths in micrometres and
  times in milliseconds as integers, the constants and positions of the
  example configuration at the head of the source file, and a small G-code
  engine that executes the lines the tool changer submits. *)

Module Rig.

#[export] Instance rig_float : FloatOps :=
  {| float := Z; fadd := Z.add; fsub := Z.sub; f_0_25 := 250%Z; f_0_5 := 500%Z |}.

#[export] Instance rig_header : Header :=
  {| ETS_INDEX := 0; TOOL_COUNT := 4; NO_TOOL := 0; MANUAL_CHG := 5;
     TOOL_GRAB_TIME := 250%Z; PROBE_FEEDRATE := 300000%Z |}.

Inductive ProbeOutcome : Type :=
  | Contact (z : Z)        (* the probe trips at machine height z *)
  | AlreadyTripped         (* alarm ProbeFailInitial *)
  | NoContact.             (* alarm ProbeFailContact *)

Definition set_modal (m : Machine) (md : gc_modal_t) : Machine :=
  mk_machine (mk_parser md (coord_system (gc_state m)) (coord_offset (gc_state m))
                        (tool_length_offset (gc_state m)))
             (sys_state m) (lastAlarm m) (probe_steps m) (motor_steps m).

Definition set_tlo (m : Machine) (t : Z) : Machine :=
  mk_machine (mk_parser (modal (gc_state m)) (coord_system (gc_state m))
                        (coord_offset (gc_state m)) t)
             (sys_state m) (lastAlarm m) (probe_steps m) (motor_steps m).

Definition set_motor (m : Machine) (s : steps_t) : Machine :=
  mk_machine (gc_state m) (sys_state m) (lastAlarm m) (probe_steps m) s.

Definition set_spindle (m : Machine) (s : SpindleState) : Machine :=
  set_modal m (mk_modal (distance (modal (gc_state m))) s (coolant (modal (gc_state m)))).

Definition set_distance (m : Machine) (d : Distance) : Machine :=
  set_modal m (mk_modal d (spindle (modal (gc_state m))) (coolant (modal (gc_state m)))).

Definition set_coolant (m : Machine) (c : coolant_t) : Machine :=
  set_modal m (mk_modal (distance (modal (gc_state m))) (spindle (modal (gc_state m))) c).

Definition probe (p : ProbeOutcome) (m : Machine) : Machine :=
  match p with
  | Contact z =>
      mk_machine (gc_state m) (sys_state m) (lastAlarm m)
                 (mk_steps (st_x (motor_steps m)) (st_y (motor_steps m)) z)
                 (mk_steps (st_x (motor_steps m)) (st_y (motor_steps m)) z)
  | AlreadyTripped =>
      mk_machine (gc_state m) Alarm ProbeFailInitial (probe_steps m) (motor_steps m)
  | NoContact =>
      mk_machine (gc_state m) Alarm ProbeFailContact (probe_steps m) (motor_steps m)
  end.

(** The engine; with [m5_works = false] the line M5 is refused and leaves
    the modal state as it was. *)
Definition exec (p : ProbeOutcome) (m5_works : bool)
           (sync_after : bool) (fmt : string) (args : list Z) (m : Machine) : Machine :=
  let ms := motor_steps m in
  if (fmt =? "M5")%string then (if m5_works then set_spindle m Disable else m)
  else if (fmt =? "M3")%string then set_spindle m Cw
  else if (fmt =? "M9")%string then set_coolant m (mk_coolant false false)
  else if (fmt =? "M7")%string
       then set_coolant m (mk_coolant (Flood (coolant (modal (gc_state m)))) true)
  else if (fmt =? "M8")%string
       then set_coolant m (mk_coolant true (Mist (coolant (modal (gc_state m)))))
  else if (fmt =? "G90")%string then set_distance m Absolute
  else if (fmt =? "G91")%string then set_distance m Incremental
  else if (fmt =? "G53 G0 Z%0.3f")%string then
    match args with [z] => set_motor m (mk_steps (st_x ms) (st_y ms) z) | _ => m end
  else if (fmt =? "G53 G0 X%0.3f Y%0.3f")%string then
    match args with [x; y] => set_motor m (mk_steps x y (st_z ms)) | _ => m end
  else if (fmt =? "G53 G0 X%0.3f Y%0.3f Z%0.3f")%string then
    match args with [x; y; z] => set_motor m (mk_steps x y z) | _ => m end
  else if (fmt =? "G43.1 Z%0.3f")%string then
    match args with [t] => set_tlo m t | _ => m end
  else if (fmt =? "G38.2 F%0.3f Z%0.3f")%string then probe p m
  else m.

Definition collab (p : ProbeOutcome) (m5_works : bool) : Collaborators :=
  {| gc_execute := exec p m5_works;
     buffer_synchronize := fun m => m;
     motor_steps_to_mpos := fun s => mk_axes (st_x s) (st_y s) (st_z s);
     OnOff_init := fun m => m;
     Spindle_activate := fun m => m;
     Spindle_deactivate := fun m => set_spindle m Disable |}.

(** The engine in working order; the probe trips 20 mm below zero. *)
Definition std : Collaborators := collab (Contact (-20000)) true.

(** The example configuration of the source file. *)
Definition all_pins (p : PinId) : Pin :=
  match p with
  | atc_valve_pin => mk_pin true "gpio.4"
  | atc_dustoff_pin => mk_pin true "gpio.16"
  | toolsetter_dustoff => mk_pin true "gpio.27"
  end.

Definition no_valve_pin (p : PinId) : Pin :=
  match p with
  | atc_valve_pin => mk_pin false "NO_PIN"
  | other => all_pins other
  end.

Definition slots (i : nat) : list Z :=
  match i with
  | 0%nat => [197000; 142000; -26000]
  | 1%nat => [237000; 142000; -26000]
  | 2%nat => [277000; 142000; -26000]
  | 3%nat => [317000; 142000; -26000]
  | _ => []
  end%Z.

Definition config : Config :=
  mk_config 4000 all_pins [157000; 142000; -31000]%Z slots (-5000)%Z 0%Z 1000%Z.

(** The third slot lists two coordinates only. *)
Definition bad_slots (i : nat) : list Z :=
  match i with 2%nat => [277000; 142000]%Z | _ => slots i end.

Definition bad_config : Config :=
  mk_config 4000 all_pins [157000; 142000; -31000]%Z bad_slots (-5000)%Z 0%Z 1000%Z.

Definition config_no_valve : Config :=
  mk_config 4000 no_valve_pin [157000; 142000; -31000]%Z slots (-5000)%Z 0%Z 1000%Z.

Definition origin : axes := mk_axes 0%Z 0%Z 0%Z.

Definition machine0 (d : Distance) (s : SpindleState) (flood mist : bool) : Machine :=
  mk_machine
    (mk_parser (mk_modal d s (mk_coolant flood mist))
               (mk_axes 10000 20000 (-40000))%Z origin 0%Z)
    Idle NoAlarm (mk_steps 0 0 0) (mk_steps 50000 60000 (-10000))%Z.

(** The controller before [init()]. *)
Definition power_on (m : Machine) : World :=
  mk_world false 0 1 0%Z (fun _ => mk_tool origin origin) false m [] [].

(** The controller after a successful [init()] with [config], holding tool
    [cur], the reference tool [zi] having been measured at [zoff]. *)
Definition ready (cur zi : N) (zoff : Z) (m : Machine) : World :=
  let w := snd (init (C := std) config (power_on m)) in
  with_zeroed_tool_index zi
    (with_current_tool cur
       (with_tool (tool_set_offset (tool w) zi Z_AXIS zoff) (with_trace [] (with_logged [] w)))).

End Rig.

(** The rig's number format and constants serve where nothing else is in
    scope, that is in the runs on the rig. *)
#[local] Existing Instance Rig.rig_float | 100.
#[local] Existing Instance Rig.rig_header | 100.

(** ** Further observations on histories and runs *)

Section MoreHistories.
Context {F : FloatOps} {H : Header} {C : Collaborators}.

Definition writes_pin (p : PinId) (e : Event) : bool :=
  match e with EvPinWrite q _ => PinId_eqb q p | _ => false end.

(** No event of the history writes pin [p]. *)
Definition never_writes (p : PinId) (t : list Obs) : Prop :=
  forallb (fun o => negb (writes_pin p (ev o))) t = true.

(** The level of pin [p] after the history: the value written last, and
    [level0] when the history does not write the pin. *)
Definition pin_level (p : PinId) (level0 : bool) (t : list Obs) : bool :=
  fold_left (fun level o =>
               match ev o with
               | EvPinWrite q v => if PinId_eqb q p then v else level
               | _ => level
               end) t level0.

(** The G-code lines of a history, in order. *)
Definition gcode_lines (t : list Obs) : list Event :=
  map ev (filter (fun o => is_gcode (ev o)) t).

Definition is_OpInit (o : Op) : bool :=
  match o with OpInit => true | _ => false end.


Definition is_OpSetATC (o : Op) : bool :=
  match o with OpSetATC _ => true | _ => false end.

(** No operation of the run is of the kind [kind]. *)
Definition none_of (kind : Op -> bool) (ops : list Op) : Prop :=
  forallb (fun o => negb (kind o)) ops = true.

(** What [init] sets up: the latch, the safe height and the pickup
    positions. *)
Definition same_registry (w w' : World) : Prop :=
  atc_ok w' = atc_ok w
  /\ top_of_z w' = top_of_z w
  /\ forall i, mpos (tool w' i) = mpos (tool w i).

(** A position list of the configuration as an array of coordinates. *)
Definition axes_of (l : list float) : option axes :=
  match l with
  | [x; y; z] => Some (mk_axes x y z)
  | _ => None
  end.

(** Properties of the world that the operations are shown to keep. *)
Definition toolsetter_idle (w : World) : Prop :=
  never_writes toolsetter_dustoff (trace w).

Definition dustoff_closed (w : World) : Prop :=
  pin_level atc_dustoff_pin false (trace w) = false.

Definition valve_closed (w : World) : Prop :=
  pin_level atc_valve_pin false (trace w) = false.

Definition not_probing (w : World) : Prop := tool_setter_probing w = false.


Definition holds_tool (n : N) (w : World) : Prop := current_tool w = n.

Definition actuated (a : list Obs) (w : World) : Prop := actuations (trace w) = a.

(** The two-second dwell of the manual change does not switch the spindle. *)
Definition engine_dwell_keeps_spindle : Prop :=
  forall b args m,
    spindle (modal (gc_state (gc_execute b "G4 P2.0" args m))) = spindle (modal (gc_state m)).
End MoreHistories.

(** ** The main loop of [Grbl.cpp]

    [run_once] resets the firmware, runs [protocol_main_loop] and counts,
    in a [static int], the times it comes back without [sys.abort]; the
    sketch calls it in an endless loop.  What a pass of the reset and of
    the protocol loop does is the business of other subsystems: a pass is
    given by how it ends. *)

Module Boot.

(** The two fields of [sys] that [run_once] reads or writes. *)
Record system_t : Type := mk_sys { state : State; abort : bool }.

(** How [reset_variables(); protocol_main_loop();] ends: by returning or
    by an [AssertionFailed] caught in [run_once], with [sys] as it is then. *)
Record Pass : Type := mk_pass { threw : bool; sys_at_exit : system_t }.

(** The firmware between two calls of [run_once], or spinning in
    [while (1) {}]. *)
Inductive Firmware : Type :=
  | Running (tries : Z) (sys : system_t)
  | Stalled (sys : system_t).

(** [int] arithmetic. *)
Definition wrap_int (z : Z) : Z := ((z + 2147483648) mod 4294967296 - 2147483648)%Z.

Definition run_once (p : Pass) (tries : Z) : Firmware :=
  let sys :=
    if threw p
    then mk_sys ConfigAlarm (abort (sys_at_exit p))   (* the catch clause *)
    else sys_at_exit p in
  if abort sys then Running tries sys                 (* !sys.abort && ... *)
  else
    let tries' := wrap_int (tries + 1) in             (* ++tries *)
    if (tries' >? 1)%Z then Stalled sys else Running tries' sys.

(** [while (1) { run_once(); }] over the passes to come. *)
Fixpoint main_loop (passes : list Pass) (fw : Firmware) : Firmware :=
  match passes, fw with
  | [], _ => fw
  | _, Stalled sys => Stalled sys
  | p :: rest, Running tries _ => main_loop rest (run_once p tries)
  end.

(** The passes that came back without [sys.abort]. *)
Definition unaborted (passes : list Pass) : list Pass :=
  filter (fun p => negb (abort (sys_at_exit p))) passes.

Definition is_Stalled (fw : Firmware) : bool :=
  match fw with Stalled _ => true | Running _ _ => false end.

End Boot.

(** ** Runs on the rig *)

Module Runs.

(** A working day: initialise, pick up tool 1, probe the workpiece by
    hand, change to tool 3, let the spindle run and stop it, hand the
    holder over for a manual change, and deactivate. *)
Definition day : list Op :=
  [OpInit;
   OpToolChange 1 false;
   OpProbeNotification;
   OpToolChange 3 false;
   OpEnvironment (fun m => Rig.set_spindle m Cw);
   OpToolChange 2 true;
   OpEnvironment (fun m => Rig.set_spindle m Disable);
   OpToolChange 0 false;
   OpToolChange 5 false;
   OpActivate;
   OpDeactivate].

(** The same without the first step. *)
Definition afternoon : list Op := tl day.


Definition off : Machine := Rig.machine0 Absolute Disable false false.

End Runs.

(** ** Laws of the monad and of property preservation *)

Section Laws.
Context {F : FloatOps}.

Lemma bind_eval {A B : Type} (m : M A) (k : A -> M B) (w : World) :
  bind m k w = k (fst (m w)) (snd (m w)).
Proof. unfold bind. destruct (m w); reflexivity. Qed.

Lemma preserved_ret {A : Type} (P : World -> Prop) (a : A) : preserved P (ret a).
Proof. intros w Hw; exact Hw. Qed.

Lemma preserved_gets {A : Type} (P : World -> Prop) (f : World -> A) : preserved P (gets f).
Proof. intros w Hw; exact Hw. Qed.

Lemma preserved_bind {A B : Type} (P : World -> Prop) (m : M A) (k : A -> M B) :
  preserved P m -> (forall a, preserved P (k a)) -> preserved P (bind m k).
Proof.
  intros Hm Hk w Hw. rewrite bind_eval. apply Hk, Hm, Hw.
Qed.

Lemma preserved_when (P : World -> Prop) (b : bool) (m : M unit) :
  preserved P m -> preserved P (when b m).
Proof. intros Hm. destruct b; [exact Hm | apply preserved_ret]. Qed.

Lemma preserved_modify (P : World -> Prop) (f : World -> World) :
  (forall w, P w -> P (f w)) -> preserved P (modify f).
Proof. intros Hf w Hw; apply Hf, Hw. Qed.
End Laws.

Create HintDb atc.
#[local] Hint Resolve preserved_ret preserved_gets preserved_when : atc.

(** Breaks a monadic body into its statements; the leaves are left to the
    hint database. *)
Ltac step_through :=
  repeat first
    [ solve [ auto with atc ]
    | apply preserved_bind; [ | intros ? ]
    | apply preserved_when
    | match goal with
      | |- preserved _ (if ?b then _ else _) => destruct b
      | |- preserved _ (match ?l with _ => _ end) => destruct l
      end ].

(** ** The valve interlock *)

Section Interlock.
Context {F : FloatOps} {H : Header} {C : Collaborators}.
Variable cfg : Config.

Lemma valve_safe_snoc (t : list Obs) (o : Obs) :
  valve_safe t ->
  negb (is_valve_write (ev o)) || SpindleState_eqb (at_spindle o) Disable = true ->
  valve_safe (t ++ [o]).
Proof.
  unfold valve_safe, valve_safeb. intros Ht Ho.
  rewrite forallb_app, Ht. simpl. rewrite Ho. reflexivity.
Qed.

Lemma emit_safe (e : Event) : is_valve_write e = false -> preserved safe_world (emit e).
Proof.
  intros He w Hw. unfold safe_world in *. simpl.
  apply valve_safe_snoc; [exact Hw | simpl; rewrite He; reflexivity].
Qed.

Lemma log_msg_safe (l : LogLevel) (s : string) : preserved safe_world (log_msg l s).
Proof. intros w Hw; exact Hw. Qed.

Lemma on_machine_safe (f : Machine -> Machine) : preserved safe_world (on_machine f).
Proof. intros w Hw; exact Hw. Qed.

Lemma modify_frame_safe (f : World -> World) :
  (forall w, trace (f w) = trace w) -> preserved safe_world (modify f).
Proof. intros Hf w Hw. unfold safe_world; simpl. rewrite Hf. exact Hw. Qed.

Lemma gc_exec_linef_safe (b : bool) (fmt : string) (args : list float) :
  preserved safe_world (gc_exec_linef b fmt args).
Proof.
  unfold gc_exec_linef. apply preserved_bind; [ | intros _ ].
  - apply emit_safe; reflexivity.
  - apply on_machine_safe.
Qed.

Lemma set_ATC_state_safe (open : bool) : preserved safe_world (set_ATC_state open).
Proof.
  intros w Hw. unfold set_ATC_state, bind, gets; simpl.
  destruct (SpindleState_eqb (spindle (modal (gc_state (mach w)))) Disable) eqn:Hs; simpl.
  - apply valve_safe_snoc; [exact Hw | simpl; exact Hs].
  - exact Hw.
Qed.

#[local] Hint Resolve log_msg_safe on_machine_safe gc_exec_linef_safe set_ATC_state_safe : atc.
#[local] Hint Extern 1 (preserved safe_world (modify _)) =>
  (apply modify_frame_safe; intros; reflexivity) : atc.
#[local] Hint Extern 1 (preserved safe_world (emit _)) =>
  (apply emit_safe; reflexivity) : atc.
#[local] Hint Extern 1 (preserved safe_world (log_debug _)) => apply log_msg_safe : atc.
#[local] Hint Extern 1 (preserved safe_world (log_info _)) => apply log_msg_safe : atc.
#[local] Hint Extern 1 (preserved safe_world (log_warn _)) => apply log_msg_safe : atc.
#[local] Hint Extern 1 (preserved safe_world (log_error _)) => apply log_msg_safe : atc.

Lemma goto_top_of_z_safe : preserved safe_world goto_top_of_z.
Proof. unfold goto_top_of_z. step_through. Qed.
#[local] Hint Resolve goto_top_of_z_safe : atc.

Lemma go_above_tool_safe (n : N) : preserved safe_world (go_above_tool n).
Proof. unfold go_above_tool. step_through. Qed.
#[local] Hint Resolve go_above_tool_safe : atc.

Lemma take_tool_safe (n : N) : preserved safe_world (take_tool n).
Proof. unfold take_tool. step_through. Qed.

Lemma return_tool_safe (n : N) : preserved safe_world (return_tool cfg n).
Proof. unfold return_tool. step_through. Qed.
#[local] Hint Resolve take_tool_safe return_tool_safe : atc.

Lemma atc_ETS_dustoff_safe : preserved safe_world atc_ETS_dustoff.
Proof. unfold atc_ETS_dustoff, synchronousWrite. step_through. Qed.
#[local] Hint Resolve atc_ETS_dustoff_safe : atc.

Lemma atc_toolsetter_probe_safe : preserved safe_world atc_toolsetter_probe.
Proof. unfold atc_toolsetter_probe, probing_move, probe_verdict. step_through. Qed.

Lemma tool_change_manual_safe (n : N) : preserved safe_world (tool_change_manual n).
Proof. unfold tool_change_manual. step_through. Qed.
#[local] Hint Resolve atc_toolsetter_probe_safe tool_change_manual_safe : atc.

Lemma tool_change_safe (n : N) (p : bool) : preserved safe_world (tool_change cfg n p).
Proof.
  unfold tool_change, automated_change, restore_states, tool_preselect,
    protocol_buffer_synchronize, is_ATC_ok.
  step_through.
Qed.
#[local] Hint Resolve tool_change_safe : atc.

Lemma parse_tool_mpos_safe (n i : nat) : preserved safe_world (parse_tool_mpos cfg n i).
Proof.
  revert i. induction n as [ | n IH ]; intros i; simpl.
  - apply preserved_ret.
  - destruct (tool_mpos cfg i) as [ | x [ | y [ | z [ | ? ? ] ] ] ]; step_through.
Qed.
#[local] Hint Resolve parse_tool_mpos_safe : atc.

Lemma atc_init_safe : preserved safe_world (atc_init cfg).
Proof.
  unfold atc_init, setAttr_Output.
  destruct (ets_mpos cfg) as [ | x [ | y [ | z [ | ? ? ] ] ] ]; step_through.
Qed.
#[local] Hint Resolve atc_init_safe : atc.

Lemma init_safe : preserved safe_world (init cfg).
Proof. unfold init. step_through. Qed.

Lemma probe_notification_safe : preserved safe_world probe_notification.
Proof. unfold probe_notification. step_through. Qed.

Lemma activate_safe : preserved safe_world activate.
Proof. unfold activate. step_through. Qed.

Lemma deactivate_safe : preserved safe_world (deactivate cfg).
Proof. unfold deactivate. step_through. Qed.

Lemma run_op_safe (o : Op) (w : World) : safe_world w -> safe_world (run_op cfg o w).
Proof.
  destruct o; simpl; try exact (fun Hw => Hw).
  - apply init_safe.
  - apply tool_change_safe.
  - apply probe_notification_safe.
  - apply activate_safe.
  - apply deactivate_safe.
  - apply take_tool_safe.
  - apply return_tool_safe.
  - apply set_ATC_state_safe.
Qed.

Lemma run_ops_safe (ops : list Op) (w : World) :
  safe_world w -> safe_world (run_ops cfg ops w).
Proof.
  revert w. induction ops as [ | o ops IH ]; intros w Hw; simpl.
  - exact Hw.
  - apply IH, run_op_safe, Hw.
Qed.
End Interlock.

(** C1: in every state reached by any sequence of operations the holder
    valve has only been written with the spindle's modal state disabled,
    and a call of [set_ATC_state] made there while the spindle is not
    disabled returns [false] and writes no pin: it only logs the error. *)
Theorem valve_written_only_with_spindle_disabled
  {F : FloatOps} {H : Header} {C : Collaborators}
  (cfg : Config) (ops : list Op) (w : World) (open : bool) :
  valve_safe (trace w) ->
  let w1 := run_ops cfg ops w in
  valve_safe (trace w1) /\
  (SpindleState_eqb (spindle_of w1) Disable = false ->
   set_ATC_state open w1 =
     (false,
      with_logged (logged w1 ++ [(LogError, "Spindle active when trying to operate ATC")]) w1)).
Proof.
  intros Hw w1. split.
  - apply (run_ops_safe cfg ops w Hw).
  - intros Hs. unfold set_ATC_state, bind, gets. simpl in *. rewrite Hs. reflexivity.
Qed.

Lemma valve_written_only_with_spindle_disabled_witness :
  let w1 := run_ops (H := Rig.rig_header) (C := Rig.std) Rig.config
              [OpInit; OpToolChange 1 false;
               OpEnvironment (fun m => Rig.set_spindle m Cw);
               OpSetATC true; OpToolChange 5 false; OpTakeTool 3]
              (Rig.power_on (Rig.machine0 Absolute Disable false false)) in
  valve_safe (trace w1) /\
  set_ATC_state true w1 =
    (false,
     with_logged (logged w1 ++ [(LogError, "Spindle active when trying to operate ATC")]) w1).
Proof.
  intros w1.
  destruct (valve_written_only_with_spindle_disabled
              (H := Rig.rig_header) (C := Rig.std) Rig.config
              [OpInit; OpToolChange 1 false;
               OpEnvironment (fun m => Rig.set_spindle m Cw);
               OpSetATC true; OpToolChange 5 false; OpTakeTool 3]
              (Rig.power_on (Rig.machine0 Absolute Disable false false)) true
              eq_refl) as [Hsafe Hrej].
  split; [ exact Hsafe | apply Hrej; reflexivity ].
Defined.

(** ** Initialisation and the latch [_atc_ok] *)

Section Initialisation.
Context {F : FloatOps} {H : Header} {C : Collaborators}.
Variable cfg : Config.

Lemma parse_tool_mpos_result (n i : nat) (w : World) :
  fst (parse_tool_mpos cfg n i w)
  = forallb (fun j => (List.length (tool_mpos cfg j) =? 3)%nat) (seq i n).
Proof.
  revert i w. induction n as [ | n IH ]; intros i w; simpl.
  - reflexivity.
  - destruct (tool_mpos cfg i) as [ | x [ | y [ | z [ | u l ] ] ] ]; simpl; try reflexivity.
    unfold bind, modify; simpl. apply IH.
Qed.

Lemma atc_init_result (w : World) : fst (atc_init cfg w) = config_ok cfg.
Proof.
  unfold atc_init, config_ok.
  destruct (spindown_ms cfg =? 0); simpl; [ reflexivity | ].
  unfold bind, setAttr_Output, emit, modify; simpl.
  destruct (pin_defined (pins cfg atc_valve_pin)); simpl; [ | reflexivity ].
  destruct (ets_mpos cfg) as [ | x [ | y [ | z [ | u l ] ] ] ]; simpl; try reflexivity.
  apply parse_tool_mpos_result.
Qed.

Lemma init_latches (w : World) : atc_ok (run (init cfg) w) = config_ok cfg.
Proof.
  unfold init. rewrite !bind_eval. simpl. apply atc_init_result.
Qed.

Lemma config_ok_slot (i : nat) :
  (i < TOOL_COUNT)%nat -> List.length (tool_mpos cfg i) <> 3%nat -> config_ok cfg = false.
Proof.
  intros Hi Hlen. unfold config_ok.
  assert (Hall : forallb (fun j => (List.length (tool_mpos cfg j) =? 3)%nat) (seq 0 TOOL_COUNT)
                 = false).
  { destruct (forallb _ _) eqn:E; [ | reflexivity ].
    rewrite forallb_forall in E.
    specialize (E i). rewrite in_seq in E.
    assert (Hin : (0 <= i < 0 + TOOL_COUNT)%nat) by lia.
    apply E, Nat.eqb_eq in Hin. contradiction. }
  rewrite Hall. apply andb_false_r.
Qed.

Lemma config_ok_bad_lists :
  spindown_ms cfg = 0
  \/ List.length (ets_mpos cfg) <> 3%nat
  \/ (exists i, (i < TOOL_COUNT)%nat /\ List.length (tool_mpos cfg i) <> 3%nat) ->
  config_ok cfg = false.
Proof.
  intros [Hs | [He | [i [Hi Hl]]]].
  - unfold config_ok. rewrite Hs. reflexivity.
  - unfold config_ok. apply Nat.eqb_neq in He. rewrite He.
    rewrite andb_false_r. reflexivity.
  - exact (config_ok_slot i Hi Hl).
Qed.

Lemma config_ok_no_valve :
  pin_defined (pins cfg atc_valve_pin) = false -> config_ok cfg = false.
Proof.
  intros Hp. unfold config_ok. rewrite Hp, andb_false_r. reflexivity.
Qed.

Lemma tool_change_rejected (n : N) (p : bool) (w : World) :
  atc_ok w = false ->
  tool_change cfg n p w
  = (false,
     with_logged (logged w ++ [(LogDebug, " tool change to: From: Preselect:");
                               (LogError, "ATC not initialized, toolchange failed")]) w).
Proof.
  intros Hok. unfold tool_change, bind, is_ATC_ok, gets, log_debug, log_error, log_msg, modify.
  simpl. rewrite Hok. simpl. rewrite <- app_assoc. reflexivity.
Qed.

Lemma tool_changes_rejected (reqs : list (N * bool)) (w : World) :
  atc_ok w = false ->
  exists l, tool_changes cfg reqs w
            = (repeat false (List.length reqs), with_logged (logged w ++ l) w).
Proof.
  revert w. induction reqs as [ | [n p] reqs IH ]; intros w Hok; simpl.
  - exists []. rewrite app_nil_r. destruct w; reflexivity.
  - rewrite (tool_change_rejected n p w Hok).
    destruct (IH (with_logged (logged w ++ [(LogDebug, " tool change to: From: Preselect:");
                               (LogError, "ATC not initialized, toolchange failed")]) w) Hok)
      as [l Hl].
    rewrite Hl. simpl. eexists. rewrite <- app_assoc. reflexivity.
Qed.

(** Once initialisation has failed, every request is turned down and
    nothing but the log grows. *)
Lemma failed_init_rejects_all (w : World) (reqs : list (N * bool)) :
  config_ok cfg = false ->
  let w0 := run (init cfg) w in
  (forall w', result (atc_init cfg) w' = false)
  /\ atc_ok w0 = false
  /\ fst (tool_changes cfg reqs w0) = repeat false (List.length reqs)
  /\ trace (snd (tool_changes cfg reqs w0)) = trace w0
  /\ mach (snd (tool_changes cfg reqs w0)) = mach w0
  /\ current_tool (snd (tool_changes cfg reqs w0)) = current_tool w0.
Proof.
  intros Hbad w0.
  assert (Hok : atc_ok w0 = false) by (unfold w0; rewrite init_latches; exact Hbad).
  destruct (tool_changes_rejected reqs w0 Hok) as [l Hl].
  split; [ intros w'; rewrite atc_init_result; exact Hbad | ].
  split; [ exact Hok | ].
  rewrite Hl. simpl. repeat split; reflexivity.
Qed.
End Initialisation.

(** C5: [atc_init] returns [false] whenever the spindle's spin-down delay
    is zero, or the toolsetter's position list or the list of any of the
    [TOOL_COUNT] tool slots does not have exactly three components;
    [init] then latches [_atc_ok] false, and every later call of
    [tool_change] returns [false] having issued no G-code line and written
    no pin: history, machine state and [current_tool] are as [init] left
    them. *)
Theorem init_fails_fast
  {F : FloatOps} {H : Header} {C : Collaborators}
  (cfg : Config) (w : World) (reqs : list (N * bool)) :
  spindown_ms cfg = 0
  \/ List.length (ets_mpos cfg) <> 3%nat
  \/ (exists i, (i < TOOL_COUNT)%nat /\ List.length (tool_mpos cfg i) <> 3%nat) ->
  let w0 := run (init cfg) w in
  (forall w', result (atc_init cfg) w' = false)
  /\ atc_ok w0 = false
  /\ fst (tool_changes cfg reqs w0) = repeat false (List.length reqs)
  /\ trace (snd (tool_changes cfg reqs w0)) = trace w0
  /\ mach (snd (tool_changes cfg reqs w0)) = mach w0
  /\ current_tool (snd (tool_changes cfg reqs w0)) = current_tool w0.
Proof.
  intros Hbad. apply failed_init_rejects_all, config_ok_bad_lists, Hbad.
Qed.

Lemma init_fails_fast_witness :
  let w0 := run (init (H := Rig.rig_header) (C := Rig.std) Rig.bad_config)
                (Rig.power_on (Rig.machine0 Absolute Disable false false)) in
  let reqs := [(1, false); (2, true); (0, false); (5, false)] in
  (forall w', result (atc_init (H := Rig.rig_header) Rig.bad_config) w' = false)
  /\ atc_ok w0 = false
  /\ fst (tool_changes (H := Rig.rig_header) (C := Rig.std) Rig.bad_config reqs w0) = [false; false; false; false]
  /\ trace (snd (tool_changes (H := Rig.rig_header) (C := Rig.std) Rig.bad_config reqs w0)) = trace w0
  /\ mach (snd (tool_changes (H := Rig.rig_header) (C := Rig.std) Rig.bad_config reqs w0)) = mach w0
  /\ current_tool (snd (tool_changes (H := Rig.rig_header) (C := Rig.std) Rig.bad_config reqs w0)) = current_tool w0.
Proof.
  apply (init_fails_fast (H := Rig.rig_header) (C := Rig.std) Rig.bad_config).
  right; right. exists 2%nat. split; [ simpl; lia | simpl; lia ].
Defined.

(** C10: [atc_init] also returns [false] when the ATC valve pin is not
    defined, whatever the position lists and the spin-down delay are;
    [_atc_ok] is latched false and every later call of [tool_change] is
    turned down without a G-code line or a pin write. *)
Theorem init_requires_valve_pin
  {F : FloatOps} {H : Header} {C : Collaborators}
  (cfg : Config) (w : World) (reqs : list (N * bool)) :
  pin_defined (pins cfg atc_valve_pin) = false ->
  let w0 := run (init cfg) w in
  (forall w', result (atc_init cfg) w' = false)
  /\ atc_ok w0 = false
  /\ fst (tool_changes cfg reqs w0) = repeat false (List.length reqs)
  /\ trace (snd (tool_changes cfg reqs w0)) = trace w0
  /\ mach (snd (tool_changes cfg reqs w0)) = mach w0
  /\ current_tool (snd (tool_changes cfg reqs w0)) = current_tool w0.
Proof.
  intros Hpin. apply failed_init_rejects_all, config_ok_no_valve, Hpin.
Qed.

(** The configuration of the witness has a spin-down delay of 4000 ms and
    three coordinates in every list; only the valve pin is missing. *)
Lemma init_requires_valve_pin_witness :
  let w0 := run (init (H := Rig.rig_header) (C := Rig.std) Rig.config_no_valve)
                (Rig.power_on (Rig.machine0 Absolute Disable false false)) in
  let reqs := [(1, false); (0, false)] in
  (spindown_ms Rig.config_no_valve <> 0
   /\ List.length (ets_mpos Rig.config_no_valve) = 3%nat
   /\ forallb (fun i => (List.length (tool_mpos Rig.config_no_valve i) =? 3)%nat)
              (seq 0 (TOOL_COUNT (Header := Rig.rig_header))) = true)
  /\ (forall w', result (atc_init (H := Rig.rig_header) Rig.config_no_valve) w' = false)
  /\ atc_ok w0 = false
  /\ fst (tool_changes (H := Rig.rig_header) (C := Rig.std) Rig.config_no_valve reqs w0) = [false; false]
  /\ trace (snd (tool_changes (H := Rig.rig_header) (C := Rig.std) Rig.config_no_valve reqs w0)) = trace w0
  /\ mach (snd (tool_changes (H := Rig.rig_header) (C := Rig.std) Rig.config_no_valve reqs w0)) = mach w0
  /\ current_tool (snd (tool_changes (H := Rig.rig_header) (C := Rig.std) Rig.config_no_valve reqs w0))
     = current_tool w0.
Proof.
  split.
  - split; [ discriminate | split; reflexivity ].
  - apply (init_requires_valve_pin (H := Rig.rig_header) (C := Rig.std) Rig.config_no_valve).
    reflexivity.
Defined.

(** The same configuration with the valve pin defined initialises. *)
Example rig_config_initialises (w : World) :
  result (atc_init (H := Rig.rig_header) Rig.config) w = true.
Proof. rewrite atc_init_result. reflexivity. Qed.

(** ** Validation, preselection and the manual path *)

Section Requests.
Context {F : FloatOps} {H : Header} {C : Collaborators}.
Variable cfg : Config.

(** On the manual path the sequence test cannot fire: its second half asks
    that neither side be [MANUAL_CHG], the path is entered only when one
    side is. *)
Lemma manual_guard_dead (cur new_tool : N) :
  ((cur =? MANUAL_CHG) || (new_tool =? MANUAL_CHG)) && manual_sequence_rejected cur new_tool
  = false.
Proof.
  unfold manual_sequence_rejected.
  destruct (cur =? MANUAL_CHG), (new_tool =? MANUAL_CHG); simpl;
    rewrite ?andb_false_r; reflexivity.
Qed.

(** [take_tool] and [return_tool] have one result. *)
Lemma take_tool_result (n : N) (w : World) : result (take_tool n) w = true.
Proof.
  unfold take_tool. rewrite !bind_eval. reflexivity.
Qed.

Lemma return_tool_result (n : N) (w : World) : result (return_tool cfg n) w = true.
Proof.
  unfold return_tool. rewrite !bind_eval. reflexivity.
Qed.
End Requests.

(** C9: a [tool_change] with [pre_select] set that passes validation
    ([_atc_ok] true, [new_tool] not above [MANUAL_CHG]) returns [true]
    after the preselect notification alone: the log gains the debug line
    and the warning, and the controller, the machine and the history of
    G-code lines and pin operations are what they were. *)
Theorem preselect_only_notifies
  {F : FloatOps} {H : Header} {C : Collaborators}
  (cfg : Config) (new_tool : N) (w : World) :
  atc_ok w = true ->
  (new_tool <=? MANUAL_CHG) = true ->
  tool_change cfg new_tool true w
  = (true,
     with_logged (logged w ++ [(LogDebug, " tool change to: From: Preselect:");
                               (LogWarn, "Tool preselect not implemented:")]) w).
Proof.
  intros Hok Hle.
  assert (Hlt : (MANUAL_CHG <? new_tool) = false).
  { rewrite N.ltb_antisym, Hle. reflexivity. }
  unfold tool_change, bind, is_ATC_ok, gets, tool_preselect, log_debug, log_warn, log_msg, modify.
  simpl. rewrite Hok. simpl. rewrite Hlt. simpl. rewrite <- app_assoc. reflexivity.
Qed.

Lemma preselect_only_notifies_witness :
  let w := Rig.ready 1 1 (-25000)%Z (Rig.machine0 Incremental Cw true false) in
  tool_change (H := Rig.rig_header) (C := Rig.std) Rig.config 3 true w
  = (true,
     with_logged (logged w ++ [(LogDebug, " tool change to: From: Preselect:");
                               (LogWarn, "Tool preselect not implemented:")]) w).
Proof.
  apply (preselect_only_notifies (H := Rig.rig_header) (C := Rig.std) Rig.config 3);
    reflexivity.
Defined.

(** C3: what the code does on the manual path.  The test that should turn
    down a sequence other than between [NO_TOOL] and [MANUAL_CHG] is never
    true there, and with tool 1 mounted and the spindle off a change to
    [MANUAL_CHG] is accepted: the valve is opened and closed and
    [current_tool] becomes [MANUAL_CHG]; so is a change from [MANUAL_CHG]
    to tool 2 and from [MANUAL_CHG] to [MANUAL_CHG]. *)
Theorem manual_change_accepts_mounted_tool :
  (forall (F : FloatOps) (H : Header) (cur new_tool : N),
      ((cur =? MANUAL_CHG) || (new_tool =? MANUAL_CHG)) && manual_sequence_rejected cur new_tool
      = false)
  /\ (let w := Rig.ready 1 1 (-25000)%Z (Rig.machine0 Absolute Disable false false) in
      let r := tool_change (H := Rig.rig_header) (C := Rig.std) Rig.config 5 false w in
      current_tool w = 1
      /\ fst r = true
      /\ current_tool (snd r) = 5
      /\ map ev (trace (snd r))
         = [EvSync; EvPinWrite atc_valve_pin true; EvGcode true "G4 P2.0" [];
            EvPinWrite atc_valve_pin false])
  /\ (let w := Rig.ready 5 1 (-25000)%Z (Rig.machine0 Absolute Disable false false) in
      let r := tool_change (H := Rig.rig_header) (C := Rig.std) Rig.config 2 false w in
      fst r = true /\ current_tool (snd r) = 2
      /\ List.length (valve_writes (trace (snd r))) = 2%nat)
  /\ (let w := Rig.ready 5 1 (-25000)%Z (Rig.machine0 Absolute Disable false false) in
      let r := tool_change (H := Rig.rig_header) (C := Rig.std) Rig.config 5 false w in
      fst r = true /\ current_tool (snd r) = 5
      /\ List.length (valve_writes (trace (snd r))) = 2%nat).
Proof.
  split; [ intros F H cur new_tool; apply manual_guard_dead | ].
  vm_compute. repeat split; reflexivity.
Qed.

(** The answer of the interlock is not looked at: [take_tool] returns
    [true] in every state.  Were it entered for tool 1 with the spindle's
    modal state [Cw], both valve writes would be refused and logged, all
    seven G-code lines of the sequence issued all the same, and
    [current_tool] set to 1.  A whole [tool_change] to tool 1 on an engine
    that refuses the line M5, so that the spindle stays on, would go the
    same way.  That the spindle is disabled where the valve is written
    rests on the line M5 that [tool_change] issues first, and so on the
    engine. *)
Remark interlock_answer_not_tested :
  (forall (F : FloatOps) (H : Header) (C : Collaborators) (n : N) (w : World),
      result (take_tool n) w = true)
  /\ (let w := Rig.ready 0 1 (-25000)%Z (Rig.machine0 Absolute Cw false false) in
      let r := take_tool (H := Rig.rig_header) (C := Rig.std) 1 w in
      fst r = true
      /\ current_tool (snd r) = 1
      /\ valve_writes (trace (snd r)) = []
      /\ map ev (trace (snd r))
         = [EvGcode true "G53 G0 Z%0.3f" [(-1000)%Z];
            EvGcode false "G53 G0 X%0.3f Y%0.3f" [197000%Z; 142000%Z];
            EvGcode true "G4 P%0.2f" [250%Z];
            EvGcode true "G53 G0 Z%0.3f" [(-26000)%Z];
            EvGcode true "G4 P%0.2f" [250%Z];
            EvGcode true "G4 P%0.2f" [250%Z];
            EvGcode true "G53 G0 Z%0.3f" [(-1000)%Z]]
      /\ logged (snd r)
         = [(LogDebug, "Get tool: ");
            (LogError, "Spindle active when trying to operate ATC");
            (LogError, "Spindle active when trying to operate ATC")])
  /\ (let w := Rig.ready 0 1 (-25000)%Z (Rig.machine0 Absolute Cw false false) in
      let r := tool_change (H := Rig.rig_header)
                 (C := Rig.collab (Rig.Contact (-20000)) false) Rig.config 1 false w in
      fst r = true
      /\ current_tool (snd r) = 1
      /\ valve_writes (trace (snd r)) = []
      /\ List.length (filter (fun o => is_gcode (ev o)) (trace (snd r))) = 18%nat
      /\ logged (snd r)
         = [(LogDebug, " tool change to: From: Preselect:");
            (LogDebug, "Get tool: ");
            (LogError, "Spindle active when trying to operate ATC");
            (LogError, "Spindle active when trying to operate ATC");
            (LogInfo, "ATC Tool No: TLO:")]).
Proof.
  split; [ intros F H C n w; apply take_tool_result | ].
  vm_compute. repeat split; reflexivity.
Qed.

(** ** The pickup sequence *)

Section Pickup.
Context {F : FloatOps} {H : Header} {C : Collaborators}.

Lemma SpindleState_eqb_eq (a b : SpindleState) : SpindleState_eqb a b = true <-> a = b.
Proof. destruct a, b; simpl; split; intros E; try reflexivity; discriminate. Qed.

Lemma take_tool_trace (n : N) (w : World) :
  spindle_of w = Disable ->
  engine_moves_keep_spindle ->
  let c := current_tool w in
  let at_old e := mk_obs e Disable c in
  take_tool n w
  = (true, snd (take_tool n w))
  /\ current_tool (snd (take_tool n w)) = n
  /\ trace (snd (take_tool n w))
     = (trace w ++
       [at_old (EvGcode true "G53 G0 Z%0.3f" [top_of_z w]);
        at_old (EvGcode false "G53 G0 X%0.3f Y%0.3f"
                  [axis_get (mpos (tool w n)) X_AXIS; axis_get (mpos (tool w n)) Y_AXIS]);
        at_old (EvPinWrite atc_valve_pin true);
        at_old (EvGcode true "G4 P%0.2f" [f_0_25]);
        at_old (EvGcode true "G53 G0 Z%0.3f" [axis_get (mpos (tool w n)) Z_AXIS]);
        at_old (EvGcode true "G4 P%0.2f" [f_0_25]);
        at_old (EvPinWrite atc_valve_pin false);
        at_old (EvGcode true "G4 P%0.2f" [TOOL_GRAB_TIME]);
        mk_obs (EvGcode true "G53 G0 Z%0.3f" [top_of_z w]) Disable n])%list.
Proof.
  intros Hs Hkeep c at_old.
  unfold take_tool, go_above_tool, goto_top_of_z, set_ATC_state, gc_exec_linef,
    synchronousWrite, emit, on_machine, log_debug, log_msg, bind, gets, modify, ret.
  unfold spindle_of in *. simpl.
  repeat (rewrite !Hkeep by reflexivity; rewrite ?Hs; simpl).
  repeat split.
  rewrite <- !app_assoc. reflexivity.
Qed.

(** Whatever the interlock answers, the G-code lines of the pickup are the
    same seven, and [current_tool] changes between the sixth and the
    seventh. *)
Lemma take_tool_lines (n : N) (w : World) :
  exists added,
    trace (snd (take_tool n w)) = (trace w ++ added)%list
    /\ map (fun o => (ev o, at_tool o)) (filter (fun o => is_gcode (ev o)) added)
       = [(EvGcode true "G53 G0 Z%0.3f" [top_of_z w], current_tool w);
          (EvGcode false "G53 G0 X%0.3f Y%0.3f"
             [axis_get (mpos (tool w n)) X_AXIS; axis_get (mpos (tool w n)) Y_AXIS],
           current_tool w);
          (EvGcode true "G4 P%0.2f" [f_0_25], current_tool w);
          (EvGcode true "G53 G0 Z%0.3f" [axis_get (mpos (tool w n)) Z_AXIS], current_tool w);
          (EvGcode true "G4 P%0.2f" [f_0_25], current_tool w);
          (EvGcode true "G4 P%0.2f" [TOOL_GRAB_TIME], current_tool w);
          (EvGcode true "G53 G0 Z%0.3f" [top_of_z w], n)].
Proof.
  unfold take_tool, go_above_tool, goto_top_of_z, set_ATC_state, gc_exec_linef,
    synchronousWrite, emit, on_machine, log_debug, log_msg, bind, gets, modify, ret.
  unfold spindle_of. simpl.
  destruct (SpindleState_eqb _ Disable); simpl;
    destruct (SpindleState_eqb _ Disable); simpl;
    rewrite <- !app_assoc; eexists; (split; [ reflexivity | reflexivity ]).
Qed.
End Pickup.

Lemma rig_moves_keep_spindle (p : Rig.ProbeOutcome) (m5_works : bool) :
  engine_moves_keep_spindle (C := Rig.collab p m5_works).
Proof.
  intros b fmt args m Hm. unfold motion_line in Hm.
  apply orb_true_iff in Hm as [Hm | Hm];
    [ apply orb_true_iff in Hm as [Hm | Hm] | ];
    apply String.eqb_eq in Hm; subst fmt;
    unfold gc_execute, Rig.collab, Rig.exec; simpl;
    destruct args as [ | x [ | y [ | z l ] ] ]; reflexivity.
Qed.

(** ** The toolsetter probe *)

(** [atc_toolsetter_probe] is the probing move followed by the verdict. *)
Lemma probe_in_two_parts
  {F : FloatOps} {H : Header} {C : Collaborators} (w : World) :
  atc_toolsetter_probe w = probe_verdict (run probing_move w).
Proof. unfold atc_toolsetter_probe. rewrite bind_eval. reflexivity. Qed.

(** The verdict on the state [v] that the probing move leaves. *)
Lemma probe_verdict_spec
  {F : FloatOps} {H : Header} {C : Collaborators} (v : World) :
  let v2 := snd (probe_verdict v) in
  let off i := axis_get (offset (tool v2 i)) Z_AXIS in
  (is_Alarm (sys_state (mach v)) = true ->
   is_ProbeFailInitial (lastAlarm (mach v)) = true ->
   probe_verdict v
   = (false, with_logged (logged v ++ [(LogError, "ATC Probe Switch Error")]) v))
  /\ (is_Alarm (sys_state (mach v)) = true ->
      is_ProbeFailInitial (lastAlarm (mach v)) = false ->
      probe_verdict v
      = (false, with_logged (logged v ++ [(LogError, "ATC Probe Missing Tool Error")]) v))
  /\ (is_Alarm (sys_state (mach v)) = false ->
      fst (probe_verdict v) = true
      /\ off (current_tool v) = axis_get (motor_steps_to_mpos (probe_steps (mach v))) Z_AXIS
      /\ (forall j, j <> current_tool v -> tool v2 j = tool v j)
      /\ ((zeroed_tool_index v =? 0) = false ->
          map ev (trace v2)
          = (map ev (trace v)
             ++ [EvGcode false "G43.1 Z%0.3f"
                   [fsub (off (current_tool v)) (off (zeroed_tool_index v))];
                 EvGcode true "G53 G0 Z%0.3f" [top_of_z v]])%list)
      /\ ((zeroed_tool_index v =? 0) = true ->
          map ev (trace v2)
          = (map ev (trace v) ++ [EvGcode true "G53 G0 Z%0.3f" [top_of_z v]])%list)).
Proof.
  intros v2 off. subst v2 off.
  unfold probe_verdict, bind, gets. simpl.
  split; [ | split ].
  - intros Ha Hi. rewrite Ha, Hi. reflexivity.
  - intros Ha Hi. rewrite Ha, Hi. reflexivity.
  - intros Ha. rewrite Ha.
    destruct (zeroed_tool_index v =? 0) eqn:Hz; cbn; unfold tool_set_offset;
      rewrite ?N.eqb_refl; cbn.
    + split; [ reflexivity | ].
      split; [ reflexivity | ].
      split; [ intros j Hj; apply N.eqb_neq in Hj; rewrite Hj; reflexivity | ].
      split; [ discriminate | ].
      intros _. rewrite !map_app. reflexivity.
    + split; [ reflexivity | ].
      split; [ reflexivity | ].
      split; [ intros j Hj; apply N.eqb_neq in Hj; rewrite Hj; reflexivity | ].
      split; [ | discriminate ].
      intros _. rewrite !map_app. cbn. rewrite <- !app_assoc. reflexivity.
Qed.

(** C4: the outcome of [atc_toolsetter_probe], read off the state [w1]
    that the probing move leaves.  In alarm with [lastAlarm] equal to
    [ProbeFailInitial] the call logs the probe-switch error and returns
    [false]; in alarm with any other cause it logs the missing-tool error
    and returns [false]; in both cases nothing else happens.  Without
    alarm the call returns [true], [tool[current_tool].offset[Z]] is the
    machine Z of the probed position, no other slot changes, and the
    lines issued after the probing move are, when [zeroed_tool_index] is
    not 0, the G43.1 with
    [tool[current_tool].offset[Z] - tool[zeroed_tool_index].offset[Z]],
    followed in either case by the rapid to the top of Z. *)
Theorem probe_outcome_mapping
  {F : FloatOps} {H : Header} {C : Collaborators} (w : World) :
  let w1 := run probing_move w in
  let w2 := run atc_toolsetter_probe w in
  let failed msg := (false, with_logged (logged w1 ++ [(LogError, msg)]) w1) in
  let cur := current_tool w1 in
  let zi := zeroed_tool_index w1 in
  let off i := axis_get (offset (tool w2 i)) Z_AXIS in
  (is_Alarm (sys_state (mach w1)) = true ->
   is_ProbeFailInitial (lastAlarm (mach w1)) = true ->
   atc_toolsetter_probe w = failed "ATC Probe Switch Error")
  /\ (is_Alarm (sys_state (mach w1)) = true ->
      is_ProbeFailInitial (lastAlarm (mach w1)) = false ->
      atc_toolsetter_probe w = failed "ATC Probe Missing Tool Error")
  /\ (is_Alarm (sys_state (mach w1)) = false ->
      result atc_toolsetter_probe w = true
      /\ off cur = axis_get (motor_steps_to_mpos (probe_steps (mach w1))) Z_AXIS
      /\ (forall j, j <> cur -> tool w2 j = tool w1 j)
      /\ ((zi =? 0) = false ->
          map ev (trace w2)
          = (map ev (trace w1)
             ++ [EvGcode false "G43.1 Z%0.3f" [fsub (off cur) (off zi)];
                 EvGcode true "G53 G0 Z%0.3f" [top_of_z w1]])%list)
      /\ ((zi =? 0) = true ->
          map ev (trace w2)
          = (map ev (trace w1) ++ [EvGcode true "G53 G0 Z%0.3f" [top_of_z w1]])%list)).
Proof.
  intros w1 w2 failed cur zi off.
  subst w2 failed cur zi off.
  rewrite (probe_in_two_parts w). fold w1.
  clearbody w1. exact (probe_verdict_spec w1).
Qed.

Lemma probe_outcome_mapping_witness :
  let w := Rig.ready 2 1 (-25000)%Z (Rig.machine0 Absolute Disable false false) in
  (atc_toolsetter_probe (C := Rig.collab Rig.AlreadyTripped true) w
   = (false,
      with_logged
        (logged (run (probing_move (C := Rig.collab Rig.AlreadyTripped true)) w)
         ++ [(LogError, "ATC Probe Switch Error")])
        (run (probing_move (C := Rig.collab Rig.AlreadyTripped true)) w)))
  /\ (atc_toolsetter_probe (C := Rig.collab Rig.NoContact true) w
      = (false,
         with_logged
           (logged (run (probing_move (C := Rig.collab Rig.NoContact true)) w)
            ++ [(LogError, "ATC Probe Missing Tool Error")])
           (run (probing_move (C := Rig.collab Rig.NoContact true)) w)))
  /\ (let w1 := run (probing_move (C := Rig.std)) w in
      let w2 := run (atc_toolsetter_probe (C := Rig.std)) w in
      result (atc_toolsetter_probe (C := Rig.std)) w = true
      /\ axis_get (offset (tool w2 2)) Z_AXIS = (-20000)%Z
      /\ map ev (trace w2)
         = (map ev (trace w1)
            ++ [EvGcode false "G43.1 Z%0.3f" [5000%Z];
                EvGcode true "G53 G0 Z%0.3f" [(-1000)%Z]])%list).
Proof.
  intros w. split; [ | split ].
  - destruct (probe_outcome_mapping (C := Rig.collab Rig.AlreadyTripped true) w) as [Hsw _].
    exact (Hsw eq_refl eq_refl).
  - destruct (probe_outcome_mapping (C := Rig.collab Rig.NoContact true) w) as [_ [Hmt _]].
    exact (Hmt eq_refl eq_refl).
  - destruct (probe_outcome_mapping (C := Rig.std) w) as [_ [_ Hgood]].
    destruct (Hgood eq_refl) as [Hr [Hoff [_ [Htlo _]]]].
    split; [ exact Hr | ].
    split; [ exact Hoff | ].
    exact (Htlo eq_refl).
Defined.

(** ** The safe travel height is not touched after initialisation *)

Section Frames.
Context {F : FloatOps} {H : Header} {C : Collaborators}.
Variable cfg : Config.
Variable z : float.

Lemma modify_frame_top (f : World -> World) :
  (forall w, top_of_z (f w) = top_of_z w) -> preserved (top_is z) (modify f).
Proof. intros Hf w Hw. unfold top_is in *. simpl. rewrite Hf. exact Hw. Qed.

Lemma emit_top (e : Event) : preserved (top_is z) (emit e).
Proof. apply modify_frame_top. reflexivity. Qed.

Lemma log_msg_top (l : LogLevel) (s : string) : preserved (top_is z) (log_msg l s).
Proof. apply modify_frame_top. reflexivity. Qed.

Lemma on_machine_top (f : Machine -> Machine) : preserved (top_is z) (on_machine f).
Proof. apply modify_frame_top. reflexivity. Qed.

#[local] Hint Resolve emit_top log_msg_top on_machine_top : atc.
#[local] Hint Extern 1 (preserved (top_is _) (modify _)) =>
  (apply modify_frame_top; intros; reflexivity) : atc.
#[local] Hint Extern 1 (preserved (top_is _) (log_debug _)) => apply log_msg_top : atc.
#[local] Hint Extern 1 (preserved (top_is _) (log_info _)) => apply log_msg_top : atc.
#[local] Hint Extern 1 (preserved (top_is _) (log_error _)) => apply log_msg_top : atc.

Lemma gc_exec_linef_top (b : bool) (fmt : string) (args : list float) :
  preserved (top_is z) (gc_exec_linef b fmt args).
Proof. unfold gc_exec_linef. step_through. Qed.
#[local] Hint Resolve gc_exec_linef_top : atc.

Lemma goto_top_of_z_top : preserved (top_is z) goto_top_of_z.
Proof. unfold goto_top_of_z. step_through. Qed.

Lemma set_ATC_state_top (open : bool) : preserved (top_is z) (set_ATC_state open).
Proof. unfold set_ATC_state, synchronousWrite. step_through. Qed.
#[local] Hint Resolve goto_top_of_z_top set_ATC_state_top : atc.

Lemma go_above_tool_top (n : N) : preserved (top_is z) (go_above_tool n).
Proof. unfold go_above_tool. step_through. Qed.
#[local] Hint Resolve go_above_tool_top : atc.

Lemma return_tool_top (n : N) : preserved (top_is z) (return_tool cfg n).
Proof. unfold return_tool. step_through. Qed.

Lemma take_tool_top (n : N) : preserved (top_is z) (take_tool n).
Proof. unfold take_tool. step_through. Qed.

Lemma atc_toolsetter_probe_top : preserved (top_is z) atc_toolsetter_probe.
Proof.
  unfold atc_toolsetter_probe, probing_move, probe_verdict, atc_ETS_dustoff, synchronousWrite.
  step_through.
Qed.
End Frames.

(** ** Giving the machine back *)

Section Restore.
Context {F : FloatOps} {H : Header} {C : Collaborators}.
Variable cfg : Config.

Lemma Distance_eqb_eq (a b : Distance) : Distance_eqb a b = true <-> a = b.
Proof. destruct a, b; simpl; split; intros E; try reflexivity; discriminate. Qed.

(** The restoring statements, run from any state [v]. *)
Lemma restore_tail (v : World) (was_incremental on flood mist : bool) (saved : axes) :
  engine_restores ->
  let tail := restore_states saved was_incremental on flood mist in
  fst (tail v) = true
  /\ (exists mode,
         map ev (trace (snd (tail v)))
         = (map ev (trace v)
            ++ restore_moves saved (top_of_z v)
                 (tool_length_offset (gc_state (mach (snd (tail v))))) on mist flood
            ++ mode)%list
         /\ (mode = [] \/ mode = [EvGcode false "G90" []] \/ mode = [EvGcode false "G91" []]))
  /\ Distance_eqb (distance_of (snd (tail v))) Incremental = was_incremental.
Proof.
  intros [HG90 HG91 Htlo] tail. subst tail.
  unfold restore_states, restore_moves, power_events.
  destruct on, mist, flood; cbn;
    match goal with
    | |- context [ Distance_eqb (distance (modal (gc_state ?m))) Incremental ] =>
        destruct (distance (modal (gc_state m))) eqn:Hd
    end;
    destruct was_incremental; cbn;
    rewrite ?HG90, ?HG91, ?Hd; cbn;
    rewrite ?HG90, ?HG91, ?Hd; cbn.
  all: split; [ reflexivity | ].
  all: split; [ | first [ reflexivity | exact Hd ] ].
  all: rewrite ?(Htlo false "G90" []), ?(Htlo false "G91" []) by auto.
  all: rewrite (Htlo false "G53 G0 Z%0.3f") by auto.
  all: rewrite !map_app; cbn; rewrite <- ?app_assoc; cbn.
  all: eexists; split; [ reflexivity | auto ].
Qed.

#[local] Arguments automated_change : simpl never.

(** With the latch set, a valid tool number, no preselection and neither
    side [MANUAL_CHG], [tool_change] is [automated_change] run on the
    snapshot taken after the planner barrier. *)
Lemma tool_change_dispatch (new_tool : N) (w : World) :
  atc_ok w = true ->
  (new_tool <=? MANUAL_CHG) = true ->
  (current_tool w =? MANUAL_CHG) = false ->
  (new_tool =? MANUAL_CHG) = false ->
  let snap := buffer_synchronize (mach w) in
  let md := modal (gc_state snap) in
  exists w0,
    top_of_z w0 = top_of_z w
    /\ tool_change cfg new_tool false w
       = automated_change cfg new_tool (motor_steps_to_mpos (motor_steps snap))
           (Distance_eqb (distance md) Incremental)
           (negb (SpindleState_eqb (spindle md) Disable))
           (Flood (coolant md)) (Mist (coolant md)) w0.
Proof.
  intros Hok Hle Hcur Hnew snap md.
  assert (Hlt : (MANUAL_CHG <? new_tool) = false)
    by (rewrite N.ltb_antisym, Hle; reflexivity).
  unfold tool_change. cbn. rewrite Hok. cbn. rewrite Hlt. cbn. rewrite Hcur, Hnew. cbn.
  eexists. split; [ | reflexivity ]. reflexivity.
Qed.

(** [automated_change] brings the machine to some state [wp], probes, and
    on success runs [restore_states]; a failed probe ends the change. *)
Lemma automated_change_split (new_tool : N) (saved : axes)
      (was_incremental on flood mist : bool) (w0 : World) :
  exists wp,
    top_of_z wp = top_of_z w0
    /\ automated_change cfg new_tool saved was_incremental on flood mist w0
       = (if fst (atc_toolsetter_probe wp)
          then restore_states saved was_incremental on flood mist
                 (snd (atc_toolsetter_probe wp))
          else (false, snd (atc_toolsetter_probe wp))).
Proof.
  unfold automated_change.
  repeat (rewrite bind_eval; cbv beta).
  cbn [gets fst snd].
  match goal with
  | |- context [ atc_toolsetter_probe ?x ] => exists x
  end.
  split; [ | destruct (fst (atc_toolsetter_probe _)); reflexivity ].
  assert (Hinit : top_is (top_of_z w0) w0) by reflexivity.
  apply (preserved_when (top_is (top_of_z w0)) _ (take_tool new_tool ;; ret tt)).
  { apply preserved_bind; [ apply take_tool_top | intros _; apply preserved_ret ]. }
  apply (preserved_when (top_is (top_of_z w0)) _ (return_tool cfg _ ;; ret tt)).
  { apply preserved_bind; [ apply return_tool_top | intros _; apply preserved_ret ]. }
  apply goto_top_of_z_top.
  apply (preserved_when _ _ _ (gc_exec_linef_top _ _ _ _)).
  apply (preserved_when _ _ _ (gc_exec_linef_top _ _ _ _)).
  exact Hinit.
Qed.
End Restore.

Lemma rig_engine_restores (p : Rig.ProbeOutcome) (m5_works : bool) :
  engine_restores (C := Rig.collab p m5_works).
Proof.
  constructor.
  - intros b m. reflexivity.
  - intros b m. reflexivity.
  - intros b fmt args m [Hf | [Hf | Hf]]; subst fmt;
      unfold gc_execute, Rig.collab, Rig.exec; simpl;
      destruct args as [ | x [ | y l ] ]; reflexivity.
Qed.

(** C6: when an automated tool change succeeds, the last lines it issues
    give the machine back from the snapshot taken after the planner
    barrier: a rapid to the saved X and Y at [top_of_z], the spindle and
    the coolant as they were, then a rapid to the saved Z plus the tool
    length offset in force, and at most one of G90 and G91; on an engine
    where G90 and G91 select the distance mode (and these and a rapid in Z
    leave the tool length offset alone) the distance mode at the end is
    the one of the snapshot. *)
Theorem automated_change_restores
  {F : FloatOps} {H : Header} {C : Collaborators}
  (cfg : Config) (new_tool : N) (w : World) :
  atc_ok w = true ->
  (new_tool <=? MANUAL_CHG) = true ->
  (current_tool w =? MANUAL_CHG) = false ->
  (new_tool =? MANUAL_CHG) = false ->
  engine_restores ->
  result (tool_change cfg new_tool false) w = true ->
  let snap := buffer_synchronize (mach w) in
  let saved_mpos := motor_steps_to_mpos (motor_steps snap) in
  let md := modal (gc_state snap) in
  let w' := run (tool_change cfg new_tool false) w in
  (exists before mode,
      map ev (trace w')
      = (before
         ++ restore_moves saved_mpos (top_of_z w)
              (tool_length_offset (gc_state (mach w')))
              (negb (SpindleState_eqb (spindle md) Disable))
              (Mist (coolant md)) (Flood (coolant md))
         ++ mode)%list
      /\ (mode = [] \/ mode = [EvGcode false "G90" []] \/ mode = [EvGcode false "G91" []]))
  /\ distance_of w' = distance md.
Proof.
  intros Hok Hle Hcur Hnew Heng Hres snap saved_mpos md w'. subst w'.
  destruct (tool_change_dispatch cfg new_tool w Hok Hle Hcur Hnew) as [w0 [Ht0 E0]].
  fold snap in E0. fold md in E0. fold saved_mpos in E0.
  destruct (automated_change_split cfg new_tool saved_mpos
              (Distance_eqb (distance md) Incremental)
              (negb (SpindleState_eqb (spindle md) Disable))
              (Flood (coolant md)) (Mist (coolant md)) w0) as [wp [Htp E1]].
  rewrite E0, E1 in *. clear E0 E1.
  destruct (fst (atc_toolsetter_probe wp)) eqn:Hp; [ | discriminate Hres ].
  assert (Htop : top_of_z (snd (atc_toolsetter_probe wp)) = top_of_z w).
  { apply (atc_toolsetter_probe_top (top_of_z w)). unfold top_is. congruence. }
  destruct (restore_tail (snd (atc_toolsetter_probe wp))
              (Distance_eqb (distance md) Incremental)
              (negb (SpindleState_eqb (spindle md) Disable))
              (Flood (coolant md)) (Mist (coolant md)) saved_mpos Heng)
    as [_ [[mode [Hm Hmode]] Hd]].
  split.
  - exists (map ev (trace (snd (atc_toolsetter_probe wp)))), mode.
    rewrite <- Htop. split; [ exact Hm | exact Hmode ].
  - simpl in Hd. simpl.
    destruct (distance (modal (gc_state (mach _)))), (distance md);
      simpl in Hd; try reflexivity; discriminate Hd.
Qed.

Lemma automated_change_restores_witness :
  let w := Rig.ready 0 1 (-25000)%Z (Rig.machine0 Incremental Cw true false) in
  let w' := run (tool_change (C := Rig.std) Rig.config 2 false) w in
  (exists before mode,
      map ev (trace w')
      = (before
         ++ [EvGcode false "G53 G0 X%0.3f Y%0.3f Z%0.3f" [50000%Z; 60000%Z; (-1000)%Z];
             EvGcode false "M3" [];
             EvGcode true "M8" [];
             EvGcode false "G53 G0 Z%0.3f" [(-5000)%Z]]
         ++ mode)%list
      /\ (mode = [] \/ mode = [EvGcode false "G90" []] \/ mode = [EvGcode false "G91" []]))
  /\ distance_of w' = Incremental.
Proof.
  intros w w'.
  assert (Hr : result (tool_change (C := Rig.std) Rig.config 2 false) w = true)
    by (vm_compute; reflexivity).
  destruct (automated_change_restores (H := Rig.rig_header) (C := Rig.std) Rig.config 2 w
              (eq_refl true) (eq_refl true) (eq_refl false) (eq_refl false)
              (rig_engine_restores (Rig.Contact (-20000)) true) Hr)
    as [[before [mode [Ht Hm]]] Hd].
  split.
  - exists before, mode. split; [ vm_cast_no_check Ht | exact Hm ].
  - vm_cast_no_check Hd.
Defined.

(** * Further properties of the controller *)

(** ** A walk through the statements of a body *)

Ltac head_of t :=
  match t with
  | ?f _ => head_of f
  | _ => t
  end.

(** Closes a primitive step with [solver], which is given the state before
    the step and the property assumed of it. *)
Ltac primitive solver :=
  match goal with
  | |- preserved _ (emit _) => apply preserved_modify; intros ? ?; solver
  | |- preserved _ (log_msg _ _) => apply preserved_modify; intros ? ?; solver
  | |- preserved _ (on_machine _) => apply preserved_modify; intros ? ?; solver
  | |- preserved _ (modify _) => apply preserved_modify; intros ? ?; solver
  end.

(** Walks through a body statement by statement: [leaf] closes the steps it
    knows, any other call is opened. *)
Ltac walk leaf :=
  repeat match goal with
         | |- preserved _ (bind _ _) => apply preserved_bind; [ | intros ? ]
         | |- preserved _ (ret _) => apply preserved_ret
         | |- preserved _ (gets _) => apply preserved_gets
         | |- preserved _ (when _ _) => apply preserved_when
         | |- preserved _ (if ?b then _ else _) => destruct b
         | |- preserved _ (match ?l with _ => _ end) => destruct l
         | |- preserved _ _ => solve [ leaf ]
         | |- preserved _ ?m => let h := head_of m in progress unfold h
         end.

Section Invariants.
Context {F : FloatOps} {H : Header} {C : Collaborators}.
Variable cfg : Config.

(** The loop of [atc_init] keeps what its two kinds of steps keep. *)
Lemma parse_tool_mpos_preserved (P : World -> Prop) (n i : nat) :
  (forall j a v,
      preserved P (modify (fun w => with_tool (tool_set_mpos (tool w) j a v) w))) ->
  (forall l s, preserved P (log_msg l s)) ->
  preserved P (parse_tool_mpos cfg n i).
Proof.
  intros Hset Hlog. revert i. induction n as [ | n IH ]; intros i; simpl.
  - apply preserved_ret.
  - destruct (tool_mpos cfg i) as [ | x [ | y [ | z [ | u l ] ] ] ];
      try (apply preserved_bind; [ apply Hlog | intros _; apply preserved_ret ]).
    repeat (apply preserved_bind; [ apply Hset | intros _ ]). apply IH.
Qed.

Lemma run_ops_invariant_all (P : World -> Prop) (ops : list Op) :
  (forall o w, P w -> P (run_op cfg o w)) ->
  forall w, P w -> P (run_ops cfg ops w).
Proof.
  intros Hop. induction ops as [ | o ops IH ]; intros w Hw; simpl.
  - exact Hw.
  - apply IH, Hop, Hw.
Qed.

(** A property kept by every operation of a kind is kept by a run of
    operations of that kind. *)
Lemma run_ops_invariant (P : World -> Prop) (excluded : Op -> bool) (ops : list Op) :
  (forall o w, excluded o = false -> P w -> P (run_op cfg o w)) ->
  none_of excluded ops ->
  forall w, P w -> P (run_ops cfg ops w).
Proof.
  intros Hop. unfold none_of. induction ops as [ | o ops IH ]; intros Hnone w Hw; simpl.
  - exact Hw.
  - simpl in Hnone. apply andb_true_iff in Hnone as [Ho Hrest].
    apply IH; [ exact Hrest | ]. apply Hop; [ | exact Hw ].
    destruct (excluded o); [ discriminate Ho | reflexivity ].
Qed.

(** *** The toolsetter's dust-off pin is configured and never driven *)

Lemma never_writes_snoc (p : PinId) (t : list Obs) (o : Obs) :
  never_writes p t -> writes_pin p (ev o) = false -> never_writes p (t ++ [o]).
Proof.
  unfold never_writes. intros Ht Ho. rewrite forallb_app, Ht. simpl. rewrite Ho. reflexivity.
Qed.

Ltac idle_step :=
  unfold toolsetter_idle in *; cbn;
  first [ assumption | apply never_writes_snoc; [ assumption | reflexivity ] ].

Lemma toolsetter_idle_op (o : Op) (w : World) :
  toolsetter_idle w -> toolsetter_idle (run_op cfg o w).
Proof.
  destruct o; cbv beta iota delta [run_op]; try exact (fun Hw => Hw);
    match goal with
    | |- _ -> _ (snd (?m _)) => revert w; change (preserved toolsetter_idle m)
    end;
    walk ltac:(first [ primitive idle_step
                     | match goal with
                       | |- preserved _ (parse_tool_mpos _ _ _) =>
                           apply parse_tool_mpos_preserved; intros; primitive idle_step
                       end ]).
Qed.

(** *** The dust-off valve is pulsed, never left open *)

Lemma pin_level_snoc (p : PinId) (level0 : bool) (t : list Obs) (o : Obs) :
  pin_level p level0 (t ++ [o])
  = match ev o with
    | EvPinWrite q v => if PinId_eqb q p then v else pin_level p level0 t
    | _ => pin_level p level0 t
    end.
Proof. unfold pin_level. rewrite fold_left_app. reflexivity. Qed.

Lemma atc_ETS_dustoff_closed : preserved dustoff_closed atc_ETS_dustoff.
Proof.
  intros w _. unfold dustoff_closed, pin_level. cbn. rewrite fold_left_app. reflexivity.
Qed.

Ltac closed_step :=
  unfold dustoff_closed, pin_level in *; cbn; rewrite ?fold_left_app; cbn; assumption.

Lemma dustoff_closed_op (o : Op) (w : World) :
  dustoff_closed w -> dustoff_closed (run_op cfg o w).
Proof.
  destruct o; cbv beta iota delta [run_op]; try exact (fun Hw => Hw);
    match goal with
    | |- _ -> _ (snd (?m _)) => revert w; change (preserved dustoff_closed m)
    end;
    walk ltac:(first [ match goal with
                       | |- preserved _ atc_ETS_dustoff => apply atc_ETS_dustoff_closed
                       end
                     | primitive closed_step
                     | match goal with
                       | |- preserved _ (parse_tool_mpos _ _ _) =>
                           apply parse_tool_mpos_preserved; intros; primitive closed_step
                       end ]).
Qed.

(** *** The flag [tool_setter_probing] is up during the probing move only *)

Lemma probing_move_not_probing : preserved not_probing probing_move.
Proof. intros w _. reflexivity. Qed.

Ltac flag_step := unfold not_probing in *; cbn; assumption.

Lemma not_probing_op (o : Op) (w : World) :
  not_probing w -> not_probing (run_op cfg o w).
Proof.
  destruct o; cbv beta iota delta [run_op]; try exact (fun Hw => Hw);
    match goal with
    | |- _ -> _ (snd (?m _)) => revert w; change (preserved not_probing m)
    end;
    walk ltac:(first [ match goal with
                       | |- preserved _ probing_move => apply probing_move_not_probing
                       end
                     | primitive flag_step
                     | match goal with
                       | |- preserved _ (parse_tool_mpos _ _ _) =>
                           apply parse_tool_mpos_preserved; intros; primitive flag_step
                       end ]).
Qed.

(** *** The reference tool *)



(** *** The registry *)

Lemma same_registry_refl (w : World) : same_registry w w.
Proof. repeat split. Qed.

Lemma mpos_tool_set_offset (t : N -> tool_t) (i : N) (a : Axis) (v : float) (j : N) :
  mpos (tool_set_offset t i a v j) = mpos (t j).
Proof.
  unfold tool_set_offset. destruct (j =? i) eqn:E; [ | reflexivity ].
  apply N.eqb_eq in E. subst j. reflexivity.
Qed.

Ltac registry_step :=
  unfold same_registry in *; cbn;
  first [ assumption
        | match goal with
          | Hw : _ /\ _ /\ _ |- _ =>
              destruct Hw as [Hok [Htop Hpos]];
              split; [ exact Hok | split; [ exact Htop | ] ];
              intros i; rewrite mpos_tool_set_offset; apply Hpos
          end ].

Lemma same_registry_op (w0 : World) (o : Op) (w : World) :
  is_OpInit o = false ->
  same_registry w0 w -> same_registry w0 (run_op cfg o w).
Proof.
  destruct o; cbv beta iota delta [run_op]; intros Hkind;
    try discriminate Hkind; try exact (fun Hw => Hw);
    match goal with
    | |- _ -> _ (snd (?m _)) => revert w; change (preserved (same_registry w0) m)
    end;
    walk ltac:(first [ primitive registry_step ]).
Qed.

(** *** The holder is opened and closed in one go *)

Section ValveClosed.
Hypothesis Hmoves : engine_moves_keep_spindle.
Hypothesis Hdwell : engine_dwell_keeps_spindle.

Ltac valve_cases w :=
  unfold valve_closed, pin_level;
  unfold take_tool, return_tool, tool_change_manual, go_above_tool, goto_top_of_z,
    set_ATC_state, gc_exec_linef, synchronousWrite, emit, on_machine, log_debug, log_info,
    log_error, log_msg, bind, gets, modify, ret;
  simpl;
  destruct (SpindleState_eqb (spindle (modal (gc_state (mach w)))) Disable) eqn:E;
  do 2 (rewrite ?Hdwell; rewrite ?Hmoves by reflexivity; rewrite ?E; simpl);
  rewrite ?fold_left_app; simpl; first [ reflexivity | assumption ].

Lemma take_tool_valve_closed (n : N) : preserved valve_closed (take_tool n).
Proof. intros w Hw. unfold valve_closed, pin_level in Hw. valve_cases w. Qed.

Lemma return_tool_valve_closed (n : N) : preserved valve_closed (return_tool cfg n).
Proof. intros w Hw. unfold valve_closed, pin_level in Hw. valve_cases w. Qed.

Lemma tool_change_manual_valve_closed (n : N) :
  preserved valve_closed (tool_change_manual n).
Proof. intros w Hw. unfold valve_closed, pin_level in Hw. valve_cases w. Qed.

Ltac valve_step :=
  unfold valve_closed, pin_level in *; cbn; rewrite ?fold_left_app; cbn; assumption.

Lemma valve_closed_op (o : Op) (w : World) :
  is_OpSetATC o = false ->
  valve_closed w -> valve_closed (run_op cfg o w).
Proof.
  destruct o; cbv beta iota delta [run_op]; intros Hkind;
    try discriminate Hkind; try exact (fun Hw => Hw);
    match goal with
    | |- _ -> _ (snd (?m _)) => revert w; change (preserved valve_closed m)
    end;
    walk ltac:(first [ match goal with
                       | |- preserved _ (take_tool _) => apply take_tool_valve_closed
                       | |- preserved _ (return_tool _ _) => apply return_tool_valve_closed
                       | |- preserved _ (tool_change_manual _) =>
                           apply tool_change_manual_valve_closed
                       end
                     | primitive valve_step
                     | match goal with
                       | |- preserved _ (parse_tool_mpos _ _ _) =>
                           apply parse_tool_mpos_preserved; intros; primitive valve_step
                       end ]).
Qed.
End ValveClosed.

(** *** Initialisation moves nothing *)

Ltac actuated_step :=
  unfold actuated, actuations in *; cbn;
  first [ assumption | rewrite filter_app; cbn; rewrite app_nil_r; assumption ].

Lemma init_actuated (a : list Obs) : preserved (actuated a) (init cfg).
Proof.
  walk ltac:(first [ primitive actuated_step
                   | match goal with
                       | |- preserved _ (parse_tool_mpos _ _ _) =>
                           apply parse_tool_mpos_preserved; intros; primitive actuated_step
                       end ]).
Qed.
End Invariants.

Lemma rig_dwell_keeps_spindle (p : Rig.ProbeOutcome) (m5_works : bool) :
  engine_dwell_keeps_spindle (C := Rig.collab p m5_works).
Proof. intros b args m. reflexivity. Qed.

(** ** What no operation does *)

(** X1: the toolsetter's dust-off pin is configured as an output by
    [atc_init] and then never written: no run of operations, with the rest
    of the firmware changing the machine state in between, adds a write to
    it. *)
Theorem toolsetter_dustoff_never_driven
  {F : FloatOps} {H : Header} {C : Collaborators}
  (cfg : Config) (ops : list Op) (w : World) :
  never_writes toolsetter_dustoff (trace w) ->
  never_writes toolsetter_dustoff (trace (run_ops cfg ops w)).
Proof.
  apply (run_ops_invariant_all cfg toolsetter_idle ops (toolsetter_idle_op cfg)).
Qed.

Lemma toolsetter_dustoff_never_driven_witness :
  never_writes toolsetter_dustoff
    (trace (run_ops (H := Rig.rig_header) (C := Rig.std) Rig.config Runs.day
              (Rig.power_on Runs.off))).
Proof.
  exact (toolsetter_dustoff_never_driven (H := Rig.rig_header) (C := Rig.std)
           Rig.config Runs.day (Rig.power_on Runs.off) eq_refl).
Defined.

(** X2: the dust-off valve is only ever pulsed.  If it is closed before a
    run of operations it is closed after it: every write of [true] to
    [_atc_dustoff_pin] is followed, in the same call, by a write of
    [false]. *)
Theorem dustoff_valve_left_closed
  {F : FloatOps} {H : Header} {C : Collaborators}
  (cfg : Config) (ops : list Op) (w : World) :
  pin_level atc_dustoff_pin false (trace w) = false ->
  pin_level atc_dustoff_pin false (trace (run_ops cfg ops w)) = false.
Proof.
  apply (run_ops_invariant_all cfg dustoff_closed ops (dustoff_closed_op cfg)).
Qed.

Lemma dustoff_valve_left_closed_witness :
  pin_level atc_dustoff_pin false
    (trace (run_ops (H := Rig.rig_header) (C := Rig.std) Rig.config Runs.day
              (Rig.power_on Runs.off))) = false.
Proof.
  exact (dustoff_valve_left_closed (H := Rig.rig_header) (C := Rig.std)
           Rig.config Runs.day (Rig.power_on Runs.off) eq_refl).
Defined.

(** X3: the holder valve is opened and closed in one go.  On an engine
    whose moves and dwells leave the spindle alone, a run of operations
    other than a bare [set_ATC_state] that starts with the holder closed
    ends with the holder closed: [take_tool], [return_tool] and
    [tool_change_manual] either write [true] and then [false] or, with the
    spindle on, write nothing. *)
Theorem holder_left_closed
  {F : FloatOps} {H : Header} {C : Collaborators}
  (cfg : Config) (ops : list Op) (w : World) :
  engine_moves_keep_spindle ->
  engine_dwell_keeps_spindle ->
  none_of is_OpSetATC ops ->
  pin_level atc_valve_pin false (trace w) = false ->
  pin_level atc_valve_pin false (trace (run_ops cfg ops w)) = false.
Proof.
  intros Hmoves Hdwell Hnone.
  apply (run_ops_invariant cfg valve_closed is_OpSetATC ops
           (valve_closed_op cfg Hmoves Hdwell) Hnone).
Qed.

Lemma holder_left_closed_witness :
  pin_level atc_valve_pin false
    (trace (run_ops (H := Rig.rig_header) (C := Rig.std) Rig.config Runs.day
              (Rig.power_on Runs.off))) = false.
Proof.
  exact (holder_left_closed (H := Rig.rig_header) (C := Rig.std)
           Rig.config Runs.day (Rig.power_on Runs.off)
           (rig_moves_keep_spindle (Rig.Contact (-20000)) true)
           (rig_dwell_keeps_spindle (Rig.Contact (-20000)) true)
           eq_refl eq_refl).
Defined.

(** X4: [init] issues no G-code line and writes no pin, whatever the
    configuration: it only declares the three pins outputs (and that only
    when the spin-down delay is not zero). *)
Theorem init_moves_nothing
  {F : FloatOps} {H : Header} {C : Collaborators} (cfg : Config) (w : World) :
  actuations (trace (run (init cfg) w)) = actuations (trace w).
Proof.
  apply (init_actuated cfg (actuations (trace w)) w). reflexivity.
Qed.

(** ** What only one operation does *)

(** X5: the latch [_atc_ok], the safe height [top_of_z] and the pickup
    position of every slot are written by [init] alone: a run of
    operations without [init] leaves all three as they were. *)
Theorem registry_written_by_init_only
  {F : FloatOps} {H : Header} {C : Collaborators}
  (cfg : Config) (ops : list Op) (w : World) :
  none_of is_OpInit ops ->
  let w' := run_ops cfg ops w in
  atc_ok w' = atc_ok w
  /\ top_of_z w' = top_of_z w
  /\ forall i, mpos (tool w' i) = mpos (tool w i).
Proof.
  intros Hnone.
  apply (run_ops_invariant cfg (same_registry w) is_OpInit ops
           (same_registry_op cfg w) Hnone w (same_registry_refl w)).
Qed.

Lemma registry_written_by_init_only_witness :
  let w := run (init (H := Rig.rig_header) (C := Rig.std) Rig.config)
               (Rig.power_on Runs.off) in
  let w' := run_ops (H := Rig.rig_header) (C := Rig.std) Rig.config Runs.afternoon w in
  atc_ok w' = atc_ok w
  /\ top_of_z w' = top_of_z w
  /\ forall i, mpos (tool w' i) = mpos (tool w i).
Proof.
  exact (registry_written_by_init_only (H := Rig.rig_header) (C := Rig.std)
           Rig.config Runs.afternoon
           (run (init (H := Rig.rig_header) (C := Rig.std) Rig.config)
                (Rig.power_on Runs.off))
           eq_refl).
Defined.



(** X7: the controller's own probe cycles never leave
    [tool_setter_probing] up, so that a probe made elsewhere is always
    heard.  After any run of operations started with the flag down, a
    [probe_notification] makes the mounted tool the reference tool unless
    the system is in alarm, in which case it changes nothing. *)
Theorem external_probe_is_heard
  {F : FloatOps} {H : Header} {C : Collaborators}
  (cfg : Config) (ops : list Op) (w : World) :
  tool_setter_probing w = false ->
  let w1 := run_ops cfg ops w in
  tool_setter_probing w1 = false
  /\ (is_Alarm (sys_state (mach w1)) = false ->
      run probe_notification w1 = with_zeroed_tool_index (current_tool w1) w1)
  /\ (is_Alarm (sys_state (mach w1)) = true -> run probe_notification w1 = w1).
Proof.
  intros Hflag w1.
  assert (H1 : tool_setter_probing w1 = false)
    by apply (run_ops_invariant_all cfg not_probing ops (not_probing_op cfg) w Hflag).
  split; [ exact H1 | ].
  clearbody w1. destruct w1. simpl in *. subst.
  unfold probe_notification, bind, gets. simpl.
  split; intros Ha; rewrite Ha; reflexivity.
Qed.

Lemma external_probe_is_heard_witness :
  let w1 := run_ops (H := Rig.rig_header) (C := Rig.std) Rig.config Runs.day
              (Rig.power_on Runs.off) in
  tool_setter_probing w1 = false
  /\ (is_Alarm (sys_state (mach w1)) = false ->
      run probe_notification w1 = with_zeroed_tool_index (current_tool w1) w1)
  /\ (is_Alarm (sys_state (mach w1)) = true -> run probe_notification w1 = w1).
Proof.
  exact (external_probe_is_heard (H := Rig.rig_header) (C := Rig.std)
           Rig.config Runs.day (Rig.power_on Runs.off) eq_refl).
Defined.

(** ** More sequences *)

Section Sequences.
Context {F : FloatOps} {H : Header} {C : Collaborators}.
Variable cfg : Config.

Lemma return_tool_trace (n : N) (w : World) :
  spindle_of w = Disable ->
  engine_moves_keep_spindle ->
  trace (snd (return_tool cfg n w))
  = (trace w ++
     [mk_obs (EvGcode true "G53 G0 Z%0.3f" [top_of_z w]) Disable (current_tool w);
      mk_obs (EvGcode false "G53 G0 X%0.3f Y%0.3f"
                [axis_get (mpos (tool w n)) X_AXIS; axis_get (mpos (tool w n)) Y_AXIS])
             Disable (current_tool w);
      mk_obs (EvGcode true "G53 G0 Z%0.3f" [axis_get (mpos (tool w n)) Z_AXIS])
             Disable (current_tool w);
      mk_obs (EvPinWrite atc_valve_pin true) Disable (current_tool w);
      mk_obs (EvGcode true "G53 G0 Z%0.3f" [empty_safe_z cfg]) Disable (current_tool w);
      mk_obs (EvPinWrite atc_valve_pin false) Disable (current_tool w)])%list.
Proof.
  intros Hs Hkeep.
  unfold return_tool, go_above_tool, goto_top_of_z, set_ATC_state, gc_exec_linef,
    synchronousWrite, emit, on_machine, log_debug, log_msg, bind, gets, modify, ret.
  unfold spindle_of in *. simpl.
  repeat (rewrite !Hkeep by reflexivity; rewrite ?Hs; simpl).
  rewrite <- !app_assoc. reflexivity.
Qed.

Lemma return_tool_lines (n : N) (w : World) :
  exists added,
    trace (snd (return_tool cfg n w)) = (trace w ++ added)%list
    /\ map (fun o => (ev o, at_tool o)) (filter (fun o => is_gcode (ev o)) added)
       = [(EvGcode true "G53 G0 Z%0.3f" [top_of_z w], current_tool w);
          (EvGcode false "G53 G0 X%0.3f Y%0.3f"
             [axis_get (mpos (tool w n)) X_AXIS; axis_get (mpos (tool w n)) Y_AXIS],
           current_tool w);
          (EvGcode true "G53 G0 Z%0.3f" [axis_get (mpos (tool w n)) Z_AXIS], current_tool w);
          (EvGcode true "G53 G0 Z%0.3f" [empty_safe_z cfg], current_tool w)].
Proof.
  unfold return_tool, go_above_tool, goto_top_of_z, set_ATC_state, gc_exec_linef,
    synchronousWrite, emit, on_machine, log_debug, log_msg, bind, gets, modify, ret.
  unfold spindle_of. simpl.
  destruct (SpindleState_eqb _ Disable); simpl;
    destruct (SpindleState_eqb _ Disable); simpl;
    rewrite <- !app_assoc; eexists; (split; [ reflexivity | reflexivity ]).
Qed.

Lemma return_tool_sets (n : N) (w : World) :
  current_tool (snd (return_tool cfg n w)) = NO_TOOL.
Proof. unfold return_tool. rewrite !bind_eval. reflexivity. Qed.

Lemma take_tool_sets (n : N) (w : World) : current_tool (snd (take_tool n w)) = n.
Proof. unfold take_tool. rewrite !bind_eval. reflexivity. Qed.
End Sequences.

(** X8: for every slot and every state, [return_tool] issues exactly four
    G-code lines: the rapid to the top of Z, the rapid in XY above the
    slot, the rapid down to the slot's stored Z and the rapid up to
    [_empty_safe_z]; [current_tool] still has its old value at each of
    them, is [NO_TOOL] when the call returns, and the call returns [true].
    With the spindle disabled (on an engine whose moves leave the spindle
    alone) the holder is opened at the slot and closed at [_empty_safe_z]:
    top of Z, above the slot, descend, open, rise, close.  There is no
    dwell and no return to the top of Z. *)
Theorem return_tool_sequence
  {F : FloatOps} {H : Header} {C : Collaborators}
  (cfg : Config) (tool_num : N) (w : World) :
  let w' := run (return_tool cfg tool_num) w in
  let slot := mpos (tool w tool_num) in
  let at_old e := mk_obs e Disable (current_tool w) in
  result (return_tool cfg tool_num) w = true
  /\ current_tool w' = NO_TOOL
  /\ (exists added,
        trace w' = (trace w ++ added)%list
        /\ map (fun o => (ev o, at_tool o)) (filter (fun o => is_gcode (ev o)) added)
           = [(EvGcode true "G53 G0 Z%0.3f" [top_of_z w], current_tool w);
              (EvGcode false "G53 G0 X%0.3f Y%0.3f"
                 [axis_get slot X_AXIS; axis_get slot Y_AXIS], current_tool w);
              (EvGcode true "G53 G0 Z%0.3f" [axis_get slot Z_AXIS], current_tool w);
              (EvGcode true "G53 G0 Z%0.3f" [empty_safe_z cfg], current_tool w)])
  /\ (spindle_of w = Disable ->
      engine_moves_keep_spindle ->
      trace w'
      = (trace w ++
         [at_old (EvGcode true "G53 G0 Z%0.3f" [top_of_z w]);
          at_old (EvGcode false "G53 G0 X%0.3f Y%0.3f"
                    [axis_get slot X_AXIS; axis_get slot Y_AXIS]);
          at_old (EvGcode true "G53 G0 Z%0.3f" [axis_get slot Z_AXIS]);
          at_old (EvPinWrite atc_valve_pin true);
          at_old (EvGcode true "G53 G0 Z%0.3f" [empty_safe_z cfg]);
          at_old (EvPinWrite atc_valve_pin false)])%list).
Proof.
  intros w' slot at_old.
  split; [ apply return_tool_result | ].
  split; [ apply return_tool_sets | ].
  split; [ apply return_tool_lines | ].
  intros Hs Hkeep. exact (return_tool_trace cfg tool_num w Hs Hkeep).
Qed.

Lemma return_tool_sequence_witness :
  let w := Rig.ready 3 1 (-25000)%Z Runs.off in
  let w' := run (return_tool (C := Rig.std) Rig.config 3) w in
  result (return_tool (C := Rig.std) Rig.config 3) w = true
  /\ current_tool w' = 0
  /\ trace w'
     = [mk_obs (EvGcode true "G53 G0 Z%0.3f" [(-1000)%Z]) Disable 3;
        mk_obs (EvGcode false "G53 G0 X%0.3f Y%0.3f" [277000%Z; 142000%Z]) Disable 3;
        mk_obs (EvGcode true "G53 G0 Z%0.3f" [(-26000)%Z]) Disable 3;
        mk_obs (EvPinWrite atc_valve_pin true) Disable 3;
        mk_obs (EvGcode true "G53 G0 Z%0.3f" [(-5000)%Z]) Disable 3;
        mk_obs (EvPinWrite atc_valve_pin false) Disable 3].
Proof.
  destruct (return_tool_sequence (H := Rig.rig_header) (C := Rig.std) Rig.config 3
              (Rig.ready 3 1 (-25000)%Z Runs.off))
    as [Hr [Hc [_ Ht]]].
  split; [ exact Hr | ].
  split; [ exact Hc | ].
  exact (Ht eq_refl (rig_moves_keep_spindle (Rig.Contact (-20000)) true)).
Defined.


(** ** Requests that are turned down, and the manual path *)

(** The two outcomes of the manual path. *)
Lemma manual_path_outcome
  {F : FloatOps} {H : Header} {C : Collaborators}
  (cfg : Config) (new_tool : N) (w : World) :
  atc_ok w = true ->
  (new_tool <=? MANUAL_CHG) = true ->
  (current_tool w =? MANUAL_CHG) || (new_tool =? MANUAL_CHG) = true ->
  let snap := buffer_synchronize (mach w) in
  let w' := run (tool_change cfg new_tool false) w in
  (SpindleState_eqb (spindle (modal (gc_state snap))) Disable = false ->
   result (tool_change cfg new_tool false) w = false
   /\ current_tool w' = current_tool w
   /\ map ev (trace w') = (map ev (trace w) ++ [EvSync])%list
   /\ mach w' = snap)
  /\ (SpindleState_eqb (spindle (modal (gc_state snap))) Disable = true ->
      result (tool_change cfg new_tool false) w = true
      /\ current_tool w' = new_tool
      /\ gcode_lines (trace w') = (gcode_lines (trace w) ++ [EvGcode true "G4 P2.0" []])%list
      /\ mach w' = gc_execute true "G4 P2.0" [] snap
      /\ (engine_dwell_keeps_spindle ->
          map ev (trace w')
          = (map ev (trace w)
             ++ [EvSync; EvPinWrite atc_valve_pin true; EvGcode true "G4 P2.0" [];
                 EvPinWrite atc_valve_pin false])%list)).
Proof.
  intros Hok Hle Hpath snap w'. subst w' snap.
  assert (Hlt : (MANUAL_CHG <? new_tool) = false)
    by (rewrite N.ltb_antisym, Hle; reflexivity).
  pose proof (manual_guard_dead (current_tool w) new_tool) as Hdead.
  rewrite Hpath in Hdead. simpl in Hdead.
  unfold tool_change, gcode_lines.
  cbn. rewrite Hok. cbn. rewrite Hlt. cbn. rewrite Hpath. cbn.
  split; intros Hs; rewrite Hs; cbn.
  - rewrite !map_app. repeat split.
  - rewrite Hdead.
    unfold tool_change_manual, set_ATC_state, gc_exec_linef, synchronousWrite, emit,
      on_machine, log_info, log_error, log_msg, bind, gets, modify, ret.
    simpl. rewrite Hs. simpl.
    destruct (SpindleState_eqb
                (spindle (modal (gc_state (gc_execute true "G4 P2.0" []
                                             (buffer_synchronize (mach w))))))
                Disable) eqn:Hafter; cbn.
    + rewrite !filter_app, !map_app. cbn. rewrite <- !app_assoc. repeat split.
    + rewrite !filter_app, !map_app. cbn. rewrite <- !app_assoc.
      split; [ reflexivity | ]. split; [ reflexivity | ].
      split; [ reflexivity | ]. split; [ reflexivity | ].
      intros Hdwell. rewrite Hdwell, Hs in Hafter. discriminate Hafter.
Qed.

(** X10: the manual path never moves the machine.  When either side is
    [MANUAL_CHG] (latch set, tool number valid, no preselection) the
    request waits for the planner and then: with the spindle on it is
    turned down, with no valve write and no G-code line, and
    [current_tool] stays; with the spindle off it succeeds, the only
    G-code line is the dwell "G4 P2.0", [current_tool] becomes the
    requested tool, and (the dwell leaving the spindle alone) the holder is
    opened before the dwell and closed after it. *)
Theorem manual_change_sequence
  {F : FloatOps} {H : Header} {C : Collaborators}
  (cfg : Config) (new_tool : N) (w : World) :
  atc_ok w = true ->
  (new_tool <=? MANUAL_CHG) = true ->
  (current_tool w =? MANUAL_CHG) || (new_tool =? MANUAL_CHG) = true ->
  let snap := buffer_synchronize (mach w) in
  let w' := run (tool_change cfg new_tool false) w in
  (SpindleState_eqb (spindle (modal (gc_state snap))) Disable = false ->
   result (tool_change cfg new_tool false) w = false
   /\ current_tool w' = current_tool w
   /\ map ev (trace w') = (map ev (trace w) ++ [EvSync])%list
   /\ mach w' = snap)
  /\ (SpindleState_eqb (spindle (modal (gc_state snap))) Disable = true ->
      result (tool_change cfg new_tool false) w = true
      /\ current_tool w' = new_tool
      /\ gcode_lines (trace w') = (gcode_lines (trace w) ++ [EvGcode true "G4 P2.0" []])%list
      /\ mach w' = gc_execute true "G4 P2.0" [] snap
      /\ (engine_dwell_keeps_spindle ->
          map ev (trace w')
          = (map ev (trace w)
             ++ [EvSync; EvPinWrite atc_valve_pin true; EvGcode true "G4 P2.0" [];
                 EvPinWrite atc_valve_pin false])%list)).
Proof. exact (manual_path_outcome cfg new_tool w). Qed.

Lemma manual_change_sequence_witness :
  (let w := Rig.ready 0 1 (-25000)%Z Runs.off in
   let w' := run (tool_change (C := Rig.std) Rig.config 5 false) w in
   result (tool_change (C := Rig.std) Rig.config 5 false) w = true
   /\ current_tool w' = 5
   /\ map ev (trace w')
      = [EvSync; EvPinWrite atc_valve_pin true; EvGcode true "G4 P2.0" [];
         EvPinWrite atc_valve_pin false])
  /\ (let w := Rig.ready 5 1 (-25000)%Z (Rig.machine0 Absolute Cw false false) in
      let w' := run (tool_change (C := Rig.std) Rig.config 0 false) w in
      result (tool_change (C := Rig.std) Rig.config 0 false) w = false
      /\ current_tool w' = 5
      /\ map ev (trace w') = [EvSync]).
Proof.
  split.
  - destruct (manual_change_sequence (H := Rig.rig_header) (C := Rig.std) Rig.config 5
                (Rig.ready 0 1 (-25000)%Z Runs.off) eq_refl eq_refl eq_refl)
      as [_ Hoff].
    destruct (Hoff eq_refl) as [Hr [Hc [_ [_ Ht]]]].
    split; [ exact Hr | ]. split; [ exact Hc | ].
    exact (Ht (rig_dwell_keeps_spindle (Rig.Contact (-20000)) true)).
  - destruct (manual_change_sequence (H := Rig.rig_header) (C := Rig.std) Rig.config 0
                (Rig.ready 5 1 (-25000)%Z (Rig.machine0 Absolute Cw false false))
                eq_refl eq_refl eq_refl)
      as [Hon _].
    destruct (Hon eq_refl) as [Hr [Hc [Ht _]]].
    split; [ exact Hr | ]. split; [ exact Hc | exact Ht ].
Defined.

(** The range check of [tool_change]. *)
Lemma tool_change_invalid
  {F : FloatOps} {H : Header} {C : Collaborators}
  (cfg : Config) (new_tool : N) (pre_select : bool) (w : World) :
  atc_ok w = true ->
  (MANUAL_CHG <? new_tool) = true ->
  tool_change cfg new_tool pre_select w
  = (false,
     with_logged (logged w ++ [(LogDebug, " tool change to: From: Preselect:");
                               (LogError, ":invalid tool number:")]) w).
Proof.
  intros Hok Hgt.
  unfold tool_change, bind, is_ATC_ok, gets, log_debug, log_error, log_msg, modify.
  simpl. rewrite Hok. simpl. rewrite Hgt. simpl. rewrite <- app_assoc. reflexivity.
Qed.

(** X11: a tool number above [MANUAL_CHG] is turned down before anything
    else happens, with or without preselection: the call returns [false],
    logs the error and leaves controller, machine and history as they
    were. *)
Theorem invalid_tool_number_rejected
  {F : FloatOps} {H : Header} {C : Collaborators}
  (cfg : Config) (new_tool : N) (pre_select : bool) (w : World) :
  atc_ok w = true ->
  (MANUAL_CHG <? new_tool) = true ->
  tool_change cfg new_tool pre_select w
  = (false,
     with_logged (logged w ++ [(LogDebug, " tool change to: From: Preselect:");
                               (LogError, ":invalid tool number:")]) w).
Proof. exact (tool_change_invalid cfg new_tool pre_select w). Qed.

Lemma invalid_tool_number_rejected_witness :
  let w := Rig.ready 1 1 (-25000)%Z Runs.off in
  tool_change (H := Rig.rig_header) (C := Rig.std) Rig.config 6 true w
  = (false,
     with_logged (logged w ++ [(LogDebug, " tool change to: From: Preselect:");
                               (LogError, ":invalid tool number:")]) w).
Proof.
  exact (invalid_tool_number_rejected (H := Rig.rig_header) (C := Rig.std) Rig.config 6 true
           (Rig.ready 1 1 (-25000)%Z Runs.off) eq_refl eq_refl).
Defined.

(** ** The mounted tool after a change *)

Section Mounted.
Context {F : FloatOps} {H : Header} {C : Collaborators}.
Variable cfg : Config.

Ltac tool_step := unfold holds_tool in *; cbn; assumption.

Lemma atc_toolsetter_probe_holds (n : N) : preserved (holds_tool n) atc_toolsetter_probe.
Proof. walk ltac:(first [ primitive tool_step ]). Qed.

Lemma restore_states_holds (n : N) (saved : axes) (wi on fl mi : bool) :
  preserved (holds_tool n) (restore_states saved wi on fl mi).
Proof. walk ltac:(first [ primitive tool_step ]). Qed.

Lemma gc_exec_linef_holds (n : N) (b : bool) (fmt : string) (args : list float) :
  preserved (holds_tool n) (gc_exec_linef b fmt args).
Proof. walk ltac:(first [ primitive tool_step ]). Qed.

Lemma goto_top_of_z_holds (n : N) : preserved (holds_tool n) goto_top_of_z.
Proof. walk ltac:(first [ primitive tool_step ]). Qed.

(** After the return and the pickup of [automated_change] the requested
    tool is the mounted one, whatever was mounted before. *)
Lemma automated_change_mounts (new_tool : N) (saved : axes)
      (was_incremental on flood mist : bool) (w0 : World) :
  exists wp,
    current_tool wp = new_tool
    /\ automated_change cfg new_tool saved was_incremental on flood mist w0
       = (if fst (atc_toolsetter_probe wp)
          then restore_states saved was_incremental on flood mist
                 (snd (atc_toolsetter_probe wp))
          else (false, snd (atc_toolsetter_probe wp))).
Proof.
  unfold automated_change.
  repeat (rewrite bind_eval; cbv beta).
  cbn [gets fst snd].
  match goal with
  | |- context [ atc_toolsetter_probe ?x ] => exists x
  end.
  split; [ | destruct (fst (atc_toolsetter_probe _)); reflexivity ].
  destruct (new_tool =? NO_TOOL) eqn:Hnew; cbn [negb when].
  - apply N.eqb_eq in Hnew. subst new_tool.
    match goal with
    | |- context [ when (negb (?c =? NO_TOOL)) _ ] => destruct (c =? NO_TOOL) eqn:Hcur
    end; cbn [negb when].
    + apply N.eqb_eq in Hcur. exact Hcur.
    + rewrite bind_eval. cbv beta. cbn [ret snd]. apply return_tool_sets.
  - rewrite bind_eval. cbv beta. cbn [ret snd]. apply take_tool_sets.
Qed.

(** The same with the answer of the probe named. *)
Lemma automated_change_cases (new_tool : N) (saved : axes)
      (was_incremental on flood mist : bool) (w0 : World) :
  exists wp probed v,
    atc_toolsetter_probe wp = (probed, v)
    /\ current_tool wp = new_tool
    /\ automated_change cfg new_tool saved was_incremental on flood mist w0
       = (if probed
          then restore_states saved was_incremental on flood mist v
          else (false, v)).
Proof.
  destruct (automated_change_mounts new_tool saved was_incremental on flood mist w0)
    as [wp [Hwp E]].
  exists wp.
  destruct (atc_toolsetter_probe wp) as [probed v].
  exists probed, v. split; [ reflexivity | ]. split; [ exact Hwp | exact E ].
Qed.
End Mounted.

Section Outcome.
Context {F : FloatOps} {H : Header} {C : Collaborators}.
Variable cfg : Config.

Lemma restore_states_result (saved : axes) (wi on fl mi : bool) (v : World) :
  fst (restore_states saved wi on fl mi v) = true.
Proof.
  unfold restore_states. repeat (rewrite bind_eval; cbv beta). reflexivity.
Qed.

(** The probing move ends the history it extends and keeps the mounted
    tool. *)
Lemma probing_move_ends_with_probe (w : World) :
  current_tool (snd (probing_move w)) = current_tool w
  /\ exists before target,
       map ev (trace (snd (probing_move w)))
       = (before ++ [EvGcode true "G38.2 F%0.3f Z%0.3f" [PROBE_FEEDRATE; target]])%list.
Proof.
  split; [ reflexivity | ].
  cbn. rewrite map_app. cbn. eexists. eexists. reflexivity.
Qed.

(** A probe that returns [false] has found the system in alarm after the
    probing move and has only logged one of its two errors since. *)
Lemma probe_false_inv (w : World) :
  fst (atc_toolsetter_probe w) = false ->
  let v := snd (probing_move w) in
  is_Alarm (sys_state (mach v)) = true
  /\ exists msg,
       (msg = "ATC Probe Switch Error" \/ msg = "ATC Probe Missing Tool Error")
       /\ snd (atc_toolsetter_probe w) = with_logged (logged v ++ [(LogError, msg)]) v.
Proof.
  intros Hf v. rewrite probe_in_two_parts in *. fold v in Hf |- *.
  destruct (probe_verdict_spec v) as [Hsw [Hmt Hgood]].
  destruct (is_Alarm (sys_state (mach v))) eqn:Ha.
  - split; [ reflexivity | ].
    destruct (is_ProbeFailInitial (lastAlarm (mach v))) eqn:Hi.
    + exists "ATC Probe Switch Error". split; [ left; reflexivity | ].
      rewrite (Hsw eq_refl eq_refl). reflexivity.
    + exists "ATC Probe Missing Tool Error". split; [ right; reflexivity | ].
      rewrite (Hmt eq_refl eq_refl). reflexivity.
  - destruct (Hgood eq_refl) as [Ht _]. rewrite Ht in Hf. discriminate Hf.
Qed.

(** Whatever [tool_change] answers on the automated path, the requested
    tool is the mounted one afterwards. *)
Lemma automated_path_mounts (new_tool : N) (w : World) :
  atc_ok w = true ->
  (new_tool <=? MANUAL_CHG) = true ->
  (current_tool w =? MANUAL_CHG) = false ->
  (new_tool =? MANUAL_CHG) = false ->
  current_tool (snd (tool_change cfg new_tool false w)) = new_tool.
Proof.
  intros Hok Hle Hcur Hnew.
  destruct (tool_change_dispatch cfg new_tool w Hok Hle Hcur Hnew) as [w0 [_ E0]].
  rewrite E0. clear E0.
  match goal with
  | |- context [ automated_change cfg new_tool ?s ?a ?b ?c ?d w0 ] =>
      destruct (automated_change_cases cfg new_tool s a b c d w0)
        as [wp [probed [v [Er [Hwp E1]]]]]
  end.
  rewrite E1. clear E1.
  pose proof (atc_toolsetter_probe_holds new_tool wp Hwp) as Hp.
  rewrite Er in Hp. change (holds_tool new_tool v) in Hp.
  destruct probed.
  - apply restore_states_holds. exact Hp.
  - exact Hp.
Qed.

Lemma tool_change_mounts (new_tool : N) (w : World) :
  fst (tool_change cfg new_tool false w) = true ->
  current_tool (snd (tool_change cfg new_tool false w)) = new_tool.
Proof.
  intros Hres.
  destruct (atc_ok w) eqn:Hok;
    [ | rewrite (tool_change_rejected cfg new_tool false w Hok) in Hres; discriminate Hres ].
  destruct (MANUAL_CHG <? new_tool) eqn:Hgt;
    [ rewrite (tool_change_invalid cfg new_tool false w Hok Hgt) in Hres; discriminate Hres | ].
  assert (Hle : (new_tool <=? MANUAL_CHG) = true).
  { rewrite N.ltb_antisym in Hgt. destruct (new_tool <=? MANUAL_CHG);
      [ reflexivity | discriminate Hgt ]. }
  destruct ((current_tool w =? MANUAL_CHG) || (new_tool =? MANUAL_CHG)) eqn:Hpath.
  - destruct (manual_path_outcome cfg new_tool w Hok Hle Hpath) as [Hon Hoff].
    destruct (SpindleState_eqb
                (spindle (modal (gc_state (buffer_synchronize (mach w))))) Disable) eqn:Hs.
    + destruct (Hoff eq_refl) as [_ [Hc _]]. exact Hc.
    + destruct (Hon eq_refl) as [Hr _]. rewrite Hr in Hres. discriminate Hres.
  - apply orb_false_elim in Hpath as [Hcur Hnew].
    exact (automated_path_mounts new_tool w Hok Hle Hcur Hnew).
Qed.

(** A failed change on the automated path has stopped at the probe. *)
Lemma automated_path_failure (new_tool : N) (w : World) :
  atc_ok w = true ->
  (new_tool <=? MANUAL_CHG) = true ->
  (current_tool w =? MANUAL_CHG) = false ->
  (new_tool =? MANUAL_CHG) = false ->
  fst (tool_change cfg new_tool false w) = false ->
  let w' := snd (tool_change cfg new_tool false w) in
  is_Alarm (sys_state (mach w')) = true
  /\ current_tool w' = new_tool
  /\ (exists before target,
         map ev (trace w')
         = (before ++ [EvGcode true "G38.2 F%0.3f Z%0.3f" [PROBE_FEEDRATE; target]])%list)
  /\ (exists earlier msg,
         (msg = "ATC Probe Switch Error" \/ msg = "ATC Probe Missing Tool Error")
         /\ logged w' = (earlier ++ [(LogError, msg)])%list).
Proof.
  intros Hok Hle Hcur Hnew Hres w'.
  pose proof (automated_path_mounts new_tool w Hok Hle Hcur Hnew) as Hm.
  fold w' in Hm. revert Hm. subst w'.
  destruct (tool_change_dispatch cfg new_tool w Hok Hle Hcur Hnew) as [w0 [_ E0]].
  rewrite E0 in Hres |- *. clear E0.
  match goal with
  | |- context [ automated_change cfg new_tool ?s ?a ?b ?c ?d w0 ] =>
      destruct (automated_change_cases cfg new_tool s a b c d w0)
        as [wp [probed [v [Er [_ E1]]]]]
  end.
  rewrite E1 in Hres |- *. clear E1.
  destruct probed.
  - rewrite restore_states_result in Hres. discriminate Hres.
  - clear Hres. intros Hm. change (current_tool v = new_tool) in Hm.
    assert (Hp : fst (atc_toolsetter_probe wp) = false) by (rewrite Er; reflexivity).
    destruct (probe_false_inv wp Hp) as [Ha [msg [Hmsg Hw]]].
    destruct (probing_move_ends_with_probe wp) as [_ [before [target Ht]]].
    rewrite Er in Hw. change (v = with_logged
                                    (logged (snd (probing_move wp)) ++ [(LogError, msg)])
                                    (snd (probing_move wp))) in Hw.
    revert Ha Ht Hw. generalize (snd (probing_move wp)). intros v0 Ha Ht Hw.
    subst v. clear Er.
    split; [ exact Ha | ]. split; [ exact Hm | ].
    split; [ exists before, target; exact Ht | ].
    exists (logged v0), msg. split; [ exact Hmsg | reflexivity ].
Qed.
End Outcome.

(** X12: a tool change that reports success has mounted the requested
    tool: whenever [tool_change(new_tool, false)] returns [true],
    [current_tool] is [new_tool] afterwards, on the manual path and on the
    automated one, with [NO_TOOL] requested or a real tool. *)
Theorem successful_change_mounts_requested_tool
  {F : FloatOps} {H : Header} {C : Collaborators}
  (cfg : Config) (new_tool : N) (w : World) :
  result (tool_change cfg new_tool false) w = true ->
  current_tool (run (tool_change cfg new_tool false) w) = new_tool.
Proof. exact (tool_change_mounts cfg new_tool w). Qed.

Lemma successful_change_mounts_requested_tool_witness :
  current_tool
    (run (tool_change (H := Rig.rig_header) (C := Rig.std) Rig.config 3 false)
         (Rig.ready 1 1 (-25000)%Z Runs.off))
  = 3.
Proof.
  assert (Hr : result (tool_change (H := Rig.rig_header) (C := Rig.std) Rig.config 3 false)
                      (Rig.ready 1 1 (-25000)%Z Runs.off) = true)
    by (vm_compute; reflexivity).
  exact (successful_change_mounts_requested_tool (H := Rig.rig_header) (C := Rig.std)
           Rig.config 3 (Rig.ready 1 1 (-25000)%Z Runs.off) Hr).
Defined.

(** X13: an automated change that reports failure has stopped at the
    probe.  On the automated path (latch set, tool number valid, neither
    side [MANUAL_CHG]) a result of [false] means: the system is in alarm,
    the last G-code line issued is the probing move (no line that gives
    the position, the spindle or the coolant back follows), the last log
    entry is one of the two probe errors, and [current_tool] is already
    the requested tool. *)
Theorem failed_change_stops_at_probe
  {F : FloatOps} {H : Header} {C : Collaborators}
  (cfg : Config) (new_tool : N) (w : World) :
  atc_ok w = true ->
  (new_tool <=? MANUAL_CHG) = true ->
  (current_tool w =? MANUAL_CHG) = false ->
  (new_tool =? MANUAL_CHG) = false ->
  result (tool_change cfg new_tool false) w = false ->
  let w' := run (tool_change cfg new_tool false) w in
  is_Alarm (sys_state (mach w')) = true
  /\ current_tool w' = new_tool
  /\ (exists before target,
         map ev (trace w')
         = (before ++ [EvGcode true "G38.2 F%0.3f Z%0.3f" [PROBE_FEEDRATE; target]])%list)
  /\ (exists earlier msg,
         (msg = "ATC Probe Switch Error" \/ msg = "ATC Probe Missing Tool Error")
         /\ logged w' = (earlier ++ [(LogError, msg)])%list).
Proof. exact (automated_path_failure cfg new_tool w). Qed.

Lemma failed_change_stops_at_probe_witness :
  let w := Rig.ready 1 1 (-25000)%Z (Rig.machine0 Absolute Cw true true) in
  let w' := run (tool_change (H := Rig.rig_header) (C := Rig.collab Rig.NoContact true)
                   Rig.config 2 false) w in
  is_Alarm (sys_state (mach w')) = true
  /\ current_tool w' = 2
  /\ (exists before target,
         map ev (trace w')
         = (before ++ [EvGcode true "G38.2 F%0.3f Z%0.3f"
                         [PROBE_FEEDRATE (Header := Rig.rig_header); target]])%list)
  /\ (exists earlier msg,
         (msg = "ATC Probe Switch Error" \/ msg = "ATC Probe Missing Tool Error")
         /\ logged w' = (earlier ++ [(LogError, msg)])%list).
Proof.
  intros w.
  assert (Hr : result (tool_change (H := Rig.rig_header) (C := Rig.collab Rig.NoContact true)
                         Rig.config 2 false) w = false)
    by (vm_compute; reflexivity).
  exact (failed_change_stops_at_probe (H := Rig.rig_header)
           (C := Rig.collab Rig.NoContact true) Rig.config 2 w
           (eq_refl true) (eq_refl true) (eq_refl false) (eq_refl false) Hr).
Defined.

(** ** What [init] loads *)

Section Registry.
Context {F : FloatOps} {H : Header} {C : Collaborators}.
Variable cfg : Config.

(** The loop over the slots writes the pickup position of the slots it
    visits and nothing else. *)
Lemma parse_tool_mpos_loads (n i : nat) (w : World) :
  fst (parse_tool_mpos cfg n i w) = true ->
  let w' := snd (parse_tool_mpos cfg n i w) in
  (forall k, (i <= k < i + n)%nat ->
             Some (mpos (tool w' (N.of_nat (k + 1)))) = axes_of (tool_mpos cfg k))
  /\ (forall j, (j < N.of_nat (i + 1) \/ N.of_nat (i + n) < j) -> tool w' j = tool w j)
  /\ (forall j, offset (tool w' j) = offset (tool w j))
  /\ top_of_z w' = top_of_z w.
Proof.
  revert i w. induction n as [ | n IH ]; intros i w Hres; simpl in *.
  - repeat split; try reflexivity. intros k Hk. lia.
  - destruct (tool_mpos cfg i) as [ | x [ | y [ | z [ | u l ] ] ] ] eqn:Ei;
      simpl in Hres; try discriminate Hres.
    unfold bind, modify in Hres |- *. simpl in Hres |- *.
    match goal with
    | |- context [ parse_tool_mpos cfg n (S i) ?v ] => set (w1 := v) in *
    end.
    destruct (IH (S i) w1 Hres) as [Hslots [Hrest [Hoff Htop]]].
    assert (Hhere : tool w1 (N.of_nat (i + 1))
                    = mk_tool (mk_axes x y z) (offset (tool w (N.of_nat (i + 1))))).
    { unfold w1. simpl. unfold tool_set_mpos. rewrite !N.eqb_refl. reflexivity. }
    assert (Hother : forall j, j <> N.of_nat (i + 1) -> tool w1 j = tool w j).
    { intros j Hj. unfold w1. simpl. unfold tool_set_mpos.
      apply N.eqb_neq in Hj. rewrite Hj. reflexivity. }
    repeat split.
    + intros k Hk. destruct (Nat.eq_dec k i) as [-> | Hne].
      * rewrite Hrest by (left; lia). rewrite Hhere, Ei. reflexivity.
      * apply Hslots. lia.
    + intros j Hj. rewrite Hrest by lia. apply Hother. lia.
    + intros j. rewrite Hoff. destruct (N.eq_dec j (N.of_nat (i + 1))) as [-> | Hne].
      * rewrite Hhere. reflexivity.
      * rewrite Hother by exact Hne. reflexivity.
    + exact Htop.
Qed.

Lemma atc_init_loads (w : World) :
  config_ok cfg = true ->
  let w' := snd (atc_init cfg w) in
  top_of_z w' = fsub (limitsMaxPosition_Z cfg) (pulloff_Z cfg)
  /\ (forall k, (k < TOOL_COUNT)%nat ->
                Some (mpos (tool w' (N.of_nat (k + 1)))) = axes_of (tool_mpos cfg k))
  /\ (ETS_INDEX = 0 \/ N.of_nat TOOL_COUNT < ETS_INDEX ->
      Some (mpos (tool w' ETS_INDEX)) = axes_of (ets_mpos cfg))
  /\ (forall j, offset (tool w' j) = offset (tool w j))
  /\ (forall j, j <> ETS_INDEX -> j = 0 \/ N.of_nat TOOL_COUNT < j -> tool w' j = tool w j).
Proof.
  intros Hok. pose proof (atc_init_result cfg w) as Hres. rewrite Hok in Hres.
  revert Hres. unfold atc_init.
  destruct (spindown_ms cfg =? 0); simpl; [ discriminate | ].
  unfold bind, setAttr_Output, emit, modify; simpl.
  destruct (pin_defined (pins cfg atc_valve_pin)); simpl; [ | discriminate ].
  destruct (ets_mpos cfg) as [ | x [ | y [ | z [ | u l ] ] ] ]; simpl; try discriminate.
  match goal with
  | |- context [ parse_tool_mpos cfg TOOL_COUNT 0 ?v ] => set (w1 := v)
  end.
  intros Hres.
  destruct (parse_tool_mpos_loads TOOL_COUNT 0 w1 Hres) as [Hslots [Hrest [Hoff Htop]]].
  assert (Hets : tool w1 ETS_INDEX = mk_tool (mk_axes x y z) (offset (tool w ETS_INDEX))).
  { unfold w1. simpl. unfold tool_set_mpos. rewrite !N.eqb_refl. reflexivity. }
  assert (Hother : forall j, j <> ETS_INDEX -> tool w1 j = tool w j).
  { intros j Hj. unfold w1. simpl. unfold tool_set_mpos.
    apply N.eqb_neq in Hj. rewrite Hj. reflexivity. }
  repeat split.
  - rewrite Htop. reflexivity.
  - intros k Hk. apply Hslots. lia.
  - intros Hfree. rewrite Hrest by lia. rewrite Hets. reflexivity.
  - intros j. rewrite Hoff. destruct (N.eq_dec j ETS_INDEX) as [-> | Hne].
    + rewrite Hets. reflexivity.
    + rewrite Hother by exact Hne. reflexivity.
  - intros j Hj Hout. rewrite Hrest by lia. apply Hother. exact Hj.
Qed.
End Registry.

(** X14: with a configuration that passes its checks, [init] sets the
    latch, computes the safe height as the Z travel limit less the pull-off,
    and copies the configured positions into the registry: slot [k + 1]
    gets the [k]-th tool position, for every [k] below [TOOL_COUNT], and
    slot [ETS_INDEX] the tool setter position, provided [ETS_INDEX] is not
    itself one of the tool slots.  The measured offsets are not touched,
    nor is any slot outside the ones named. *)
Theorem init_loads_the_registry
  {F : FloatOps} {H : Header} {C : Collaborators} (cfg : Config) (w : World) :
  config_ok cfg = true ->
  let w' := run (init cfg) w in
  atc_ok w' = true
  /\ top_of_z w' = fsub (limitsMaxPosition_Z cfg) (pulloff_Z cfg)
  /\ (forall k, (k < TOOL_COUNT)%nat ->
                Some (mpos (tool w' (N.of_nat (k + 1)))) = axes_of (tool_mpos cfg k))
  /\ (ETS_INDEX = 0 \/ N.of_nat TOOL_COUNT < ETS_INDEX ->
      Some (mpos (tool w' ETS_INDEX)) = axes_of (ets_mpos cfg))
  /\ (forall j, offset (tool w' j) = offset (tool w j))
  /\ (forall j, j <> ETS_INDEX -> j = 0 \/ N.of_nat TOOL_COUNT < j -> tool w' j = tool w j).
Proof.
  intros Hok w'.
  split; [ unfold w'; rewrite init_latches; exact Hok | ].
  unfold w', init. rewrite !bind_eval. simpl.
  match goal with
  | |- context [ atc_init cfg ?v ] => exact (atc_init_loads cfg v Hok)
  end.
Qed.

Lemma init_loads_the_registry_witness :
  let w' := run (init (H := Rig.rig_header) (C := Rig.std) Rig.config)
                (Rig.power_on Runs.off) in
  atc_ok w' = true
  /\ top_of_z w' = (-1000)%Z
  /\ mpos (tool w' 3) = (mk_axes (F := Rig.rig_float) 277000 142000 (-26000))%Z
  /\ mpos (tool w' 0) = (mk_axes (F := Rig.rig_float) 157000 142000 (-31000))%Z.
Proof.
  intros w'.
  destruct (init_loads_the_registry (H := Rig.rig_header) (C := Rig.std)
              Rig.config (Rig.power_on Runs.off) (eq_refl true))
    as [Hl [Ht [Hs [He _]]]].
  fold w' in Hl, Ht, Hs, He.
  split; [ exact Hl | ]. split; [ exact Ht | ].
  split.
  - exact (f_equal (fun o => match o with Some a => a | None => Rig.origin end)
                   (Hs 2%nat (le_S 3 3 (le_n 3)))).
  - exact (f_equal (fun o => match o with Some a => a | None => Rig.origin end)
                   (He (or_introl eq_refl))).
Defined.

(** ** The restart loop of [Grbl.cpp] *)

Lemma main_loop_stalled (passes : list Boot.Pass) (sys : Boot.system_t) :
  Boot.main_loop passes (Boot.Stalled sys) = Boot.Stalled sys.
Proof. destruct passes; reflexivity. Qed.

Lemma wrap_int_small (z : Z) :
  (-2147483648 <= z < 2147483648)%Z -> Boot.wrap_int z = z.
Proof.
  intros Hz. unfold Boot.wrap_int.
  rewrite Z.mod_small by lia. lia.
Qed.

(** From a counter of 0 or 1 on: the counter goes up by one with each
    pass that ends without [sys.abort], and the pass that would take it
    to 2 stalls the firmware. *)
Lemma main_loop_counts (passes : list Boot.Pass) :
  forall (t : Z) (sys : Boot.system_t),
    (0 <= t <= 1)%Z ->
    match Boot.main_loop passes (Boot.Running t sys) with
    | Boot.Running t' _ =>
        t' = (t + Z.of_nat (List.length (Boot.unaborted passes)))%Z /\ (t' <= 1)%Z
    | Boot.Stalled sys' =>
        (2 <= t + Z.of_nat (List.length (Boot.unaborted passes)))%Z
        /\ Boot.abort sys' = false
    end.
Proof.
  induction passes as [ | p rest IH ]; intros t sys Ht.
  - simpl. lia.
  - change (Boot.main_loop (p :: rest) (Boot.Running t sys))
      with (Boot.main_loop rest (Boot.run_once p t)).
    unfold Boot.run_once, Boot.unaborted. simpl filter.
    destruct p as [threw [st ab]]. simpl Boot.abort. simpl Boot.threw.
    simpl Boot.sys_at_exit.
    assert (Hab : Boot.abort (if threw then Boot.mk_sys ConfigAlarm ab
                              else Boot.mk_sys st ab) = ab)
      by (destruct threw; reflexivity).
    rewrite Hab. destruct ab; simpl negb; cbv iota.
    + apply IH. exact Ht.
    + rewrite wrap_int_small by lia.
      destruct (t + 1 >? 1)%Z eqn:Egt.
      * rewrite main_loop_stalled. simpl List.length. split; [ lia | exact Hab ].
      * assert (Ht0 : t = 0%Z) by lia. subst t.
        specialize (IH 1%Z (if threw then Boot.mk_sys ConfigAlarm false
                            else Boot.mk_sys st false) ltac:(lia)).
        simpl List.length. unfold Boot.unaborted in IH.
        destruct (Boot.main_loop rest _); destruct IH as [I1 I2];
          split; first [ lia | exact I2 ].
Qed.

(** X15: the firmware stalls at the second pass of the main loop that
    ends without [sys.abort], whether the pass returned or threw, and not
    before: after any passes from power-up it is spinning in
    [while (1) {}] exactly when at least two of them ended without
    [sys.abort].  Passes left by a user abort are never counted. *)
Theorem stalls_at_second_unaborted_pass (passes : list Boot.Pass) (sys : Boot.system_t) :
  Boot.is_Stalled (Boot.main_loop passes (Boot.Running 0 sys))
  = (2 <=? List.length (Boot.unaborted passes))%nat.
Proof.
  pose proof (main_loop_counts passes 0%Z sys ltac:(lia)) as Hc.
  destruct (Boot.main_loop passes (Boot.Running 0 sys)); unfold Boot.is_Stalled.
  - symmetry. apply Nat.leb_gt. lia.
  - symmetry. apply Nat.leb_le. lia.
Qed.

(** X16: while the firmware is running, the [static int tries] of
    [run_once] is the number of passes so far that ended without
    [sys.abort], and it is 0 or 1: the increment never overflows. *)
Theorem tries_counts_unaborted_passes
  (passes : list Boot.Pass) (sys sys' : Boot.system_t) (t : Z) :
  Boot.main_loop passes (Boot.Running 0 sys) = Boot.Running t sys' ->
  t = Z.of_nat (List.length (Boot.unaborted passes)) /\ (0 <= t <= 1)%Z.
Proof.
  intros Hrun.
  pose proof (main_loop_counts passes 0%Z sys ltac:(lia)) as Hc.
  rewrite Hrun in Hc. lia.
Qed.

Lemma tries_counts_unaborted_passes_witness :
  let quit := Boot.mk_pass false (Boot.mk_sys Idle true) in
  let crash := Boot.mk_pass true (Boot.mk_sys Idle false) in
  1%Z = Z.of_nat (List.length (Boot.unaborted [quit; crash; quit])) /\ (0 <= 1 <= 1)%Z.
Proof.
  intros quit crash.
  exact (tries_counts_unaborted_passes [quit; crash; quit]
           (Boot.mk_sys Idle false) (Boot.mk_sys Idle true) 1%Z eq_refl).
Defined.

(** * The return and the pickup inside a tool change *)

Section Calling.
Context {F : FloatOps} {H : Header} {C : Collaborators}.
Variable cfg : Config.

#[local] Arguments automated_change : simpl never.

(** The history and the log of [take_tool] in any state, on an engine
    whose moves and dwells leave the spindle alone: at each of its two
    calls of [set_ATC_state] there is the write, or else the refusal. *)
Lemma take_tool_journal (n : N) (w : World) :
  engine_moves_keep_spindle ->
  let sp := spindle_of w in
  let cur := current_tool w in
  let slot := mpos (tool w n) in
  let w' := snd (take_tool n w) in
  trace w'
  = (trace w
     ++ [mk_obs (EvGcode true "G53 G0 Z%0.3f" [top_of_z w]) sp cur;
         mk_obs (EvGcode false "G53 G0 X%0.3f Y%0.3f"
                   [axis_get slot X_AXIS; axis_get slot Y_AXIS]) sp cur]
     ++ valve_event sp cur true
     ++ [mk_obs (EvGcode true "G4 P%0.2f" [f_0_25]) sp cur;
         mk_obs (EvGcode true "G53 G0 Z%0.3f" [axis_get slot Z_AXIS]) sp cur;
         mk_obs (EvGcode true "G4 P%0.2f" [f_0_25]) sp cur]
     ++ valve_event sp cur false
     ++ [mk_obs (EvGcode true "G4 P%0.2f" [TOOL_GRAB_TIME]) sp cur;
         mk_obs (EvGcode true "G53 G0 Z%0.3f" [top_of_z w]) sp n])%list
  /\ logged w'
     = (logged w ++ (LogDebug, "Get tool: ") :: valve_refusal sp ++ valve_refusal sp)%list
  /\ spindle_of w' = sp
  /\ tool w' = tool w
  /\ top_of_z w' = top_of_z w.
Proof.
  intros Hkeep sp cur slot w'. subst sp cur slot w'.
  unfold take_tool, go_above_tool, goto_top_of_z, set_ATC_state, gc_exec_linef,
    synchronousWrite, emit, on_machine, log_debug, log_error, log_msg, bind, gets, modify, ret,
    valve_event, valve_refusal.
  unfold spindle_of in *. simpl.
  repeat (rewrite !Hkeep by reflexivity; simpl).
  destruct (SpindleState_eqb (spindle (modal (gc_state (mach w)))) Disable) eqn:Hs; simpl;
    do 8 (rewrite ?Hkeep by reflexivity; rewrite ?Hs; simpl);
    repeat split; rewrite <- ?app_assoc; reflexivity.
Qed.

(** The same for [return_tool]. *)
Lemma return_tool_journal (n : N) (w : World) :
  engine_moves_keep_spindle ->
  let sp := spindle_of w in
  let cur := current_tool w in
  let slot := mpos (tool w n) in
  let w' := snd (return_tool cfg n w) in
  trace w'
  = (trace w
     ++ [mk_obs (EvGcode true "G53 G0 Z%0.3f" [top_of_z w]) sp cur;
         mk_obs (EvGcode false "G53 G0 X%0.3f Y%0.3f"
                   [axis_get slot X_AXIS; axis_get slot Y_AXIS]) sp cur;
         mk_obs (EvGcode true "G53 G0 Z%0.3f" [axis_get slot Z_AXIS]) sp cur]
     ++ valve_event sp cur true
     ++ [mk_obs (EvGcode true "G53 G0 Z%0.3f" [empty_safe_z cfg]) sp cur]
     ++ valve_event sp cur false)%list
  /\ logged w'
     = (logged w ++ (LogDebug, "Return tool: ") :: valve_refusal sp ++ valve_refusal sp)%list
  /\ spindle_of w' = sp
  /\ tool w' = tool w
  /\ top_of_z w' = top_of_z w.
Proof.
  intros Hkeep sp cur slot w'. subst sp cur slot w'.
  unfold return_tool, go_above_tool, goto_top_of_z, set_ATC_state, gc_exec_linef,
    synchronousWrite, emit, on_machine, log_debug, log_error, log_msg, bind, gets, modify, ret,
    valve_event, valve_refusal.
  unfold spindle_of in *. simpl.
  repeat (rewrite !Hkeep by reflexivity; simpl).
  destruct (SpindleState_eqb (spindle (modal (gc_state (mach w)))) Disable) eqn:Hs; simpl;
    do 8 (rewrite ?Hkeep by reflexivity; rewrite ?Hs; simpl);
    repeat split; rewrite <- ?app_assoc; reflexivity.
Qed.

(** [tool_change] on the automated path is [automated_change] run in the
    state [w0] after the planner barrier, on the snapshot of [w0]. *)
Lemma tool_change_enters (new_tool : N) (w : World) :
  atc_ok w = true ->
  (new_tool <=? MANUAL_CHG) = true ->
  (current_tool w =? MANUAL_CHG) = false ->
  (new_tool =? MANUAL_CHG) = false ->
  exists w0,
    (current_tool w0 = current_tool w
     /\ tool w0 = tool w
     /\ top_of_z w0 = top_of_z w
     /\ logged w0 = (logged w ++ [(LogDebug, " tool change to: From: Preselect:")])%list
     /\ trace w0 = (trace w ++ [mk_obs EvSync (spindle_of w) (current_tool w)])%list)
    /\ tool_change cfg new_tool false w
       = automated_change cfg new_tool (motor_steps_to_mpos (motor_steps (mach w0)))
           (Distance_eqb (distance_of w0) Incremental)
           (negb (SpindleState_eqb (spindle_of w0) Disable))
           (Flood (coolant (modal (gc_state (mach w0)))))
           (Mist (coolant (modal (gc_state (mach w0))))) w0.
Proof.
  intros Hok Hle Hcur Hnew.
  assert (Hlt : (MANUAL_CHG <? new_tool) = false)
    by (rewrite N.ltb_antisym, Hle; reflexivity).
  unfold tool_change. cbn. rewrite Hok. cbn. rewrite Hlt. cbn. rewrite Hcur, Hnew. cbn.
  match goal with
  | |- exists w0, _ /\ automated_change _ _ _ _ _ _ _ ?x = _ => exists x
  end.
  split; [ | reflexivity ]. cbn. repeat split; reflexivity.
Qed.

(** The lines that stop the coolant and the spindle and the rapid to the
    top of Z leave the spindle disabled. *)
Lemma stop_and_rise (fl mi : bool) (w0 : World) :
  engine_moves_keep_spindle ->
  engine_stops_spindle ->
  let on := negb (SpindleState_eqb (spindle_of w0) Disable) in
  let w1 := snd (goto_top_of_z
                   (snd (when on (gc_exec_linef true "M5" [])
                           (snd (when (fl || mi) (gc_exec_linef true "M9" []) w0))))) in
  spindle_of w1 = Disable
  /\ logged w1 = logged w0
  /\ current_tool w1 = current_tool w0
  /\ tool w1 = tool w0
  /\ top_of_z w1 = top_of_z w0
  /\ grown (trace w0) w1
  /\ valve_writes (trace w1) = valve_writes (trace w0).
Proof.
  intros Hmoves [HM5 HM9] on w1. subst on w1.
  unfold goto_top_of_z, gc_exec_linef, emit, on_machine, when, bind, gets, modify, ret, grown,
    valve_writes.
  unfold spindle_of. 
  destruct (SpindleState_eqb (spindle (modal (gc_state (mach w0)))) Disable) eqn:Hs;
    destruct (fl || mi); cbn;
    rewrite ?Hmoves by reflexivity; rewrite ?HM5, ?HM9;
    (split; [ try reflexivity; apply SpindleState_eqb_eq; exact Hs | ]);
    (split; [ reflexivity | ]); (split; [ reflexivity | ]);
    (split; [ reflexivity | ]); (split; [ reflexivity | ]);
    (split; [ rewrite <- ?app_assoc; eexists; reflexivity | ]);
    rewrite !filter_app; cbn; rewrite ?app_nil_r; reflexivity.
Qed.

Lemma when_not (b : bool) (m : M bool) (w : World) :
  snd (when (negb b) (m ;; ret tt) w) = if b then w else snd (m w).
Proof. destruct b; [ reflexivity | ]. cbn [negb when]. rewrite bind_eval. reflexivity. Qed.

(** The stages of [automated_change]: [w1] where the return begins, [w2]
    where the pickup begins, [wp] where the probe cycle begins. *)
Lemma automated_change_stages
      (new_tool : N) (saved : axes) (inc fl mi : bool) (w0 : World) :
  engine_moves_keep_spindle ->
  engine_stops_spindle ->
  exists w1 w2 wp,
    (spindle_of w1 = Disable
     /\ logged w1 = logged w0
     /\ current_tool w1 = current_tool w0
     /\ tool w1 = tool w0
     /\ top_of_z w1 = top_of_z w0
     /\ grown (trace w0) w1
     /\ valve_writes (trace w1) = valve_writes (trace w0))
    /\ w2 = (if current_tool w0 =? NO_TOOL then w1
             else snd (return_tool cfg (current_tool w0) w1))
    /\ wp = (if new_tool =? NO_TOOL then w2 else snd (take_tool new_tool w2))
    /\ automated_change cfg new_tool saved inc
         (negb (SpindleState_eqb (spindle_of w0) Disable)) fl mi w0
       = (if fst (atc_toolsetter_probe wp)
          then restore_states saved inc (negb (SpindleState_eqb (spindle_of w0) Disable))
                 fl mi (snd (atc_toolsetter_probe wp))
          else (false, snd (atc_toolsetter_probe wp))).
Proof.
  intros Hmoves Hstops.
  pose proof (stop_and_rise fl mi w0 Hmoves Hstops) as Hpre. cbv zeta in Hpre.
  unfold automated_change.
  repeat (rewrite bind_eval; cbv beta).
  cbn [gets fst snd].
  rewrite !when_not.
  revert Hpre.
  generalize (snd (goto_top_of_z
                     (snd (when (negb (SpindleState_eqb (spindle_of w0) Disable))
                             (gc_exec_linef true "M5" [])
                             (snd (when (fl || mi) (gc_exec_linef true "M9" []) w0)))))).
  intros w1 Hpre.
  destruct Hpre as [Hs [Hl [Hc [Htl [Htop [Hg Hv]]]]]].
  rewrite Hc.
  exists w1. eexists. eexists.
  split; [ repeat split; assumption | ].
  split; [ reflexivity | ]. split; [ reflexivity | ].
  destruct (fst (atc_toolsetter_probe _)); reflexivity.
Qed.

Ltac grown_step :=
  unfold grown in *; cbn in *;
  first [ assumption
        | match goal with
          | Hg : exists l, trace _ = (_ ++ l)%list |- _ =>
              destruct Hg as [l Hl]; rewrite Hl, <- app_assoc; eexists; reflexivity
          end ].

Ltac filter_step :=
  try match goal with
      | |- context [ is_ProbeFailInitial ?a ] => destruct (is_ProbeFailInitial a)
      end;
  cbn in *;
  first [ assumption
        | unfold valve_writes, refusals in *; rewrite filter_app; cbn;
          rewrite app_nil_r; assumption ].

(** The probe cycle and the restoring statements extend the history,
    write no valve and log no refusal. *)
Lemma probe_and_restore_grow (t0 : list Obs) (saved : axes) (inc on fl mi : bool) :
  preserved (grown t0) atc_toolsetter_probe
  /\ preserved (grown t0) (restore_states saved inc on fl mi).
Proof. split; walk ltac:(first [ primitive grown_step ]). Qed.

Lemma probe_and_restore_write_no_valve (k : list Obs) (saved : axes) (inc on fl mi : bool) :
  preserved (fun w => valve_writes (trace w) = k) atc_toolsetter_probe
  /\ preserved (fun w => valve_writes (trace w) = k) (restore_states saved inc on fl mi).
Proof. split; walk ltac:(first [ primitive filter_step ]). Qed.

Lemma probe_and_restore_log_no_refusal
      (k : list (LogLevel * string)) (saved : axes) (inc on fl mi : bool) :
  preserved (fun w => refusals (logged w) = k) atc_toolsetter_probe
  /\ preserved (fun w => refusals (logged w) = k) (restore_states saved inc on fl mi).
Proof. split; walk ltac:(first [ primitive filter_step ]). Qed.

(** The return and the pickup, entered with the spindle disabled. *)
Lemma stage_return (cur : N) (w1 : World) :
  engine_moves_keep_spindle ->
  spindle_of w1 = Disable ->
  current_tool w1 = cur ->
  let w2 := if cur =? NO_TOOL then w1 else snd (return_tool cfg cur w1) in
  (spindle_of w2 = Disable
   /\ current_tool w2 = NO_TOOL
   /\ tool w2 = tool w1
   /\ top_of_z w2 = top_of_z w1)
  /\ trace w2
     = (trace w1 ++ (if cur =? NO_TOOL then [] else return_events (empty_safe_z cfg) cur w1))%list
  /\ refusals (logged w2) = refusals (logged w1).
Proof.
  intros Hmoves Hs Hc w2. subst w2.
  destruct (cur =? NO_TOOL) eqn:Hno.
  - apply N.eqb_eq in Hno. rewrite app_nil_r. rewrite Hc, Hno. repeat split; assumption.
  - destruct (return_tool_journal cur w1 Hmoves) as [Ht [Hl [Hsp [Htl Htop]]]].
    rewrite Hs in Ht, Hl, Hsp.
    split; [ split; [ exact Hsp | ]; split; [ apply return_tool_sets | ];
             split; [ exact Htl | exact Htop ] | ].
    split; [ exact Ht | ].
    rewrite Hl. unfold refusals. rewrite filter_app. cbn. apply app_nil_r.
Qed.

Lemma stage_pickup (n : N) (w2 : World) :
  engine_moves_keep_spindle ->
  spindle_of w2 = Disable ->
  let wp := if n =? NO_TOOL then w2 else snd (take_tool n w2) in
  spindle_of wp = Disable
  /\ trace wp = (trace w2 ++ (if n =? NO_TOOL then [] else pickup_events n w2))%list
  /\ refusals (logged wp) = refusals (logged w2).
Proof.
  intros Hmoves Hs wp. subst wp.
  destruct (n =? NO_TOOL).
  - rewrite app_nil_r. repeat split; assumption.
  - destruct (take_tool_journal n w2 Hmoves) as [Ht [Hl [Hsp _]]].
    rewrite Hs in Ht, Hl, Hsp.
    split; [ exact Hsp | ]. split; [ exact Ht | ].
    rewrite Hl. unfold refusals. rewrite filter_app. cbn. apply app_nil_r.
Qed.

(** An automated tool change, stage by stage: on an engine whose M5 stops
    the spindle, and whose M9, moves and dwells leave it alone, the
    return and the pickup are entered with the spindle disabled, and the
    result of the change is the result of the probe cycle. *)
Lemma automated_path_stages (new_tool : N) (w : World) :
  engine_moves_keep_spindle ->
  engine_stops_spindle ->
  atc_ok w = true ->
  (new_tool <=? MANUAL_CHG) = true ->
  (current_tool w =? MANUAL_CHG) = false ->
  (new_tool =? MANUAL_CHG) = false ->
  exists w1 w2 wp probed v,
    (spindle_of w1 = Disable
     /\ current_tool w1 = current_tool w
     /\ tool w1 = tool w
     /\ top_of_z w1 = top_of_z w
     /\ grown (trace w) w1
     /\ refusals (logged w1) = refusals (logged w)
     /\ valve_writes (trace w1) = valve_writes (trace w))
    /\ ((spindle_of w2 = Disable
         /\ current_tool w2 = NO_TOOL
         /\ tool w2 = tool w1
         /\ top_of_z w2 = top_of_z w1)
        /\ trace w2
           = (trace w1 ++ (if current_tool w =? NO_TOOL then []
                           else return_events (empty_safe_z cfg) (current_tool w) w1))%list
        /\ refusals (logged w2) = refusals (logged w1))
    /\ (spindle_of wp = Disable
        /\ trace wp
           = (trace w2 ++ (if new_tool =? NO_TOOL then [] else pickup_events new_tool w2))%list
        /\ refusals (logged wp) = refusals (logged w2))
    /\ atc_toolsetter_probe wp = (probed, v)
    /\ fst (tool_change cfg new_tool false w) = probed
    /\ (probed = false -> snd (tool_change cfg new_tool false w) = v)
    /\ grown (trace wp) (snd (tool_change cfg new_tool false w))
    /\ refusals (logged (snd (tool_change cfg new_tool false w))) = refusals (logged wp)
    /\ valve_writes (trace (snd (tool_change cfg new_tool false w))) = valve_writes (trace wp).
Proof.
  intros Hmoves Hstops Hok Hle Hcur Hnew.
  destruct (tool_change_enters new_tool w Hok Hle Hcur Hnew)
    as [w0 [[Hc0 [Htl0 [Htop0 [Hl0 Ht0]]]] E0]].
  rewrite E0. clear E0.
  match goal with
  | |- context [ automated_change cfg new_tool ?s ?i _ ?f ?m w0 ] =>
      destruct (automated_change_stages new_tool s i f m w0 Hmoves Hstops)
        as [w1 [w2 [wp [[Hs1 [Hl1 [Hc1 [Htl1 [Htop1 [Hg1 Hv1]]]]]] [E2 [Ep E1]]]]]]
  end.
  rewrite E1. clear E1.
  rewrite Hc0 in E2, Hc1.
  pose proof (stage_return (current_tool w) w1 Hmoves Hs1 Hc1) as Hret.
  cbv zeta in Hret. rewrite <- E2 in Hret. clear E2.
  destruct Hret as [Hs2 Hret].
  pose proof (stage_pickup new_tool w2 Hmoves (proj1 Hs2)) as Hpick.
  cbv zeta in Hpick. rewrite <- Ep in Hpick. clear Ep.
  pose proof (probe_and_restore_grow (trace wp)) as Hgrow.
  pose proof (probe_and_restore_write_no_valve (valve_writes (trace wp))) as Hvalve.
  pose proof (probe_and_restore_log_no_refusal (refusals (logged wp))) as Hlog.
  destruct (atc_toolsetter_probe wp) as [probed v] eqn:Er.
  exists w1, w2, wp, probed, v.
  split.
  { split; [ exact Hs1 | ]. split; [ exact Hc1 | ].
    split; [ rewrite Htl1; exact Htl0 | ]. split; [ rewrite Htop1; exact Htop0 | ].
    split.
    - destruct Hg1 as [l Hl]. unfold grown. rewrite Hl, Ht0, <- app_assoc.
      eexists. reflexivity.
    - split.
      + rewrite Hl1, Hl0. unfold refusals. rewrite filter_app. cbn. apply app_nil_r.
      + rewrite Hv1, Ht0. unfold valve_writes. rewrite filter_app. cbn. apply app_nil_r. }
  split; [ split; [ exact Hs2 | exact Hret ] | ].
  split; [ exact Hpick | ].
  split; [ exact Er | ].
  cbn [fst snd].
  assert (Hg : grown (trace wp) v).
  { pose proof (proj1 (Hgrow (mk_axes f_0_25 f_0_25 f_0_25) false false false false) wp) as Hp.
    rewrite Er in Hp. apply Hp. exists []. symmetry. apply app_nil_r. }
  assert (Hr : refusals (logged v) = refusals (logged wp)).
  { pose proof (proj1 (Hlog (mk_axes f_0_25 f_0_25 f_0_25) false false false false) wp) as Hp.
    rewrite Er in Hp. apply Hp. reflexivity. }
  assert (Hw : valve_writes (trace v) = valve_writes (trace wp)).
  { pose proof (proj1 (Hvalve (mk_axes f_0_25 f_0_25 f_0_25) false false false false) wp) as Hp.
    rewrite Er in Hp. apply Hp. reflexivity. }
  destruct probed.
  - split; [ apply restore_states_result | ].
    split; [ discriminate | ].
    split; [ apply (proj2 (Hgrow _ _ _ _ _)); exact Hg | ].
    split; [ apply (proj2 (Hlog _ _ _ _ _)); exact Hr | ].
    apply (proj2 (Hvalve _ _ _ _ _)); exact Hw.
  - cbn [fst snd]. repeat split; assumption.
Qed.
End Calling.

(** ** Failing steps, the pickup in its calling context *)

Lemma rig_stops_spindle (p : Rig.ProbeOutcome) :
  engine_stops_spindle (C := Rig.collab p true).
Proof. constructor; intros b args m; reflexivity. Qed.

(** The events of a pickup and of a return depend on the tool table, on
    the safe height and on the mounted tool only. *)
Lemma events_at_entry
  {F : FloatOps} {H : Header} (n : N) (safe_z : float) (w v : World) :
  tool v = tool w -> top_of_z v = top_of_z w -> current_tool v = current_tool w ->
  pickup_events n v = pickup_events n w
  /\ return_events safe_z n v = return_events safe_z n w.
Proof.
  intros Ht Hz Hc. unfold pickup_events, return_events. cbn. rewrite Ht, Hz, Hc.
  split; reflexivity.
Qed.



(** C8: for every tool number and every state, [take_tool] issues exactly
    these G-code lines in this order: rapid to the top of Z, rapid in XY
    above the slot, dwell 0.25 s, rapid down to the slot's stored Z, dwell
    0.25 s, dwell [TOOL_GRAB_TIME], rapid back to the top of Z;
    [current_tool] has its old value at each of the first six and is the
    new tool at the last, and the call returns [true].  With the spindle
    disabled (on an engine whose moves and dwells leave the spindle alone)
    the holder is opened before the first dwell and closed before the
    third, so that the whole sequence is: top of Z, above the slot, open,
    dwell, descend, dwell, close, dwell, set [current_tool], top of Z.
    In any state, on such an engine, the history has at each of these two
    places the write to the valve, or nothing and the log the interlock's
    refusal.  And [take_tool] is entered with the spindle disabled
    whenever [tool_change] calls it, on an engine whose M5 stops the
    spindle: the history of every tool change that picks up [tool_num]
    contains the nine events of [pickup_events], open and close included,
    one after the other, each stamped with the spindle disabled. *)
Theorem take_tool_sequence
  {F : FloatOps} {H : Header} {C : Collaborators} (tool_num : N) (w : World) :
  let w' := run (take_tool tool_num) w in
  let slot := mpos (tool w tool_num) in
  let before e := mk_obs e Disable (current_tool w) in
  let after e := mk_obs e Disable tool_num in
  let sp := spindle_of w in
  let at_entry e := mk_obs e sp (current_tool w) in
  result (take_tool tool_num) w = true
  /\ current_tool w' = tool_num
  /\ (exists added,
        trace w' = (trace w ++ added)%list
        /\ map (fun o => (ev o, at_tool o)) (filter (fun o => is_gcode (ev o)) added)
           = [(EvGcode true "G53 G0 Z%0.3f" [top_of_z w], current_tool w);
              (EvGcode false "G53 G0 X%0.3f Y%0.3f"
                 [axis_get slot X_AXIS; axis_get slot Y_AXIS], current_tool w);
              (EvGcode true "G4 P%0.2f" [f_0_25], current_tool w);
              (EvGcode true "G53 G0 Z%0.3f" [axis_get slot Z_AXIS], current_tool w);
              (EvGcode true "G4 P%0.2f" [f_0_25], current_tool w);
              (EvGcode true "G4 P%0.2f" [TOOL_GRAB_TIME], current_tool w);
              (EvGcode true "G53 G0 Z%0.3f" [top_of_z w], tool_num)])
  /\ (spindle_of w = Disable ->
      engine_moves_keep_spindle ->
      trace w'
      = (trace w ++
         [before (EvGcode true "G53 G0 Z%0.3f" [top_of_z w]);
          before (EvGcode false "G53 G0 X%0.3f Y%0.3f"
                    [axis_get slot X_AXIS; axis_get slot Y_AXIS]);
          before (EvPinWrite atc_valve_pin true);
          before (EvGcode true "G4 P%0.2f" [f_0_25]);
          before (EvGcode true "G53 G0 Z%0.3f" [axis_get slot Z_AXIS]);
          before (EvGcode true "G4 P%0.2f" [f_0_25]);
          before (EvPinWrite atc_valve_pin false);
          before (EvGcode true "G4 P%0.2f" [TOOL_GRAB_TIME]);
          after (EvGcode true "G53 G0 Z%0.3f" [top_of_z w])])%list)
  /\ (engine_moves_keep_spindle ->
      trace w'
      = (trace w
         ++ [at_entry (EvGcode true "G53 G0 Z%0.3f" [top_of_z w]);
             at_entry (EvGcode false "G53 G0 X%0.3f Y%0.3f"
                         [axis_get slot X_AXIS; axis_get slot Y_AXIS])]
         ++ valve_event sp (current_tool w) true
         ++ [at_entry (EvGcode true "G4 P%0.2f" [f_0_25]);
             at_entry (EvGcode true "G53 G0 Z%0.3f" [axis_get slot Z_AXIS]);
             at_entry (EvGcode true "G4 P%0.2f" [f_0_25])]
         ++ valve_event sp (current_tool w) false
         ++ [at_entry (EvGcode true "G4 P%0.2f" [TOOL_GRAB_TIME]);
             mk_obs (EvGcode true "G53 G0 Z%0.3f" [top_of_z w]) sp tool_num])%list
      /\ logged w'
         = (logged w ++ (LogDebug, "Get tool: ") :: valve_refusal sp ++ valve_refusal sp)%list)
  /\ (forall (cfg : Config) (w0 : World),
         engine_moves_keep_spindle ->
         engine_stops_spindle ->
         atc_ok w0 = true ->
         (tool_num <=? MANUAL_CHG) = true ->
         (current_tool w0 =? MANUAL_CHG) = false ->
         (tool_num =? MANUAL_CHG) = false ->
         (tool_num =? NO_TOOL) = false ->
         exists earlier later,
           trace (run (tool_change cfg tool_num false) w0)
           = (trace w0 ++ earlier
              ++ pickup_events tool_num (with_current_tool NO_TOOL w0) ++ later)%list).
Proof.
  intros w' slot before after sp at_entry.
  split; [ apply take_tool_result | ].
  split; [ unfold w', take_tool; rewrite !bind_eval; reflexivity | ].
  split; [ apply take_tool_lines | ].
  split.
  { intros Hs Hkeep.
    destruct (take_tool_trace tool_num w Hs Hkeep) as [_ [_ Ht]]. exact Ht. }
  split.
  { intros Hkeep.
    destruct (take_tool_journal tool_num w Hkeep) as [Ht [Hl _]].
    split; [ exact Ht | exact Hl ]. }
  intros cfg w0 Hmoves Hstops Hok Hle Hcur Hnew Hno.
  destruct (automated_path_stages cfg tool_num w0 Hmoves Hstops Hok Hle Hcur Hnew)
    as [w1 [w2 [wp [probed [v [[Hs1 [Hc1 [Htl1 [Htop1 [Hg1 _]]]]]
          [[[Hs2 [Hc2 [Htl2 Htop2]]] [Ht2 _]] [[_ [Htp _]] [_ [_ [_ [Hg _]]]]]]]]]]]].
  rewrite Hno in Htp.
  assert (Hev : pickup_events tool_num w2
                = pickup_events tool_num (with_current_tool NO_TOOL w0)).
  { apply (events_at_entry tool_num f_0_25 (with_current_tool NO_TOOL w0) w2).
    - rewrite Htl2. exact Htl1.
    - rewrite Htop2. exact Htop1.
    - exact Hc2. }
  destruct Hg as [later Hlater]. destruct Hg1 as [l1 Hl1].
  rewrite Hlater, Htp, Ht2, Hl1, Hev.
  match goal with
  | |- context [ ((trace w0 ++ l1) ++ ?r)%list ] => exists (l1 ++ r)%list
  end.
  exists later. rewrite <- !app_assoc. reflexivity.
Qed.

Lemma take_tool_sequence_witness :
  let w := Rig.ready 0 1 (-25000)%Z (Rig.machine0 Absolute Disable false false) in
  let w' := run (take_tool (C := Rig.std) 2) w in
  let w0 := Rig.ready 0 1 (-25000)%Z (Rig.machine0 Absolute Cw true false) in
  result (take_tool (C := Rig.std) 2) w = true
  /\ current_tool w' = 2
  /\ trace w'
     = [mk_obs (EvGcode true "G53 G0 Z%0.3f" [(-1000)%Z]) Disable 0;
        mk_obs (EvGcode false "G53 G0 X%0.3f Y%0.3f" [237000%Z; 142000%Z]) Disable 0;
        mk_obs (EvPinWrite atc_valve_pin true) Disable 0;
        mk_obs (EvGcode true "G4 P%0.2f" [250%Z]) Disable 0;
        mk_obs (EvGcode true "G53 G0 Z%0.3f" [(-26000)%Z]) Disable 0;
        mk_obs (EvGcode true "G4 P%0.2f" [250%Z]) Disable 0;
        mk_obs (EvPinWrite atc_valve_pin false) Disable 0;
        mk_obs (EvGcode true "G4 P%0.2f" [250%Z]) Disable 0;
        mk_obs (EvGcode true "G53 G0 Z%0.3f" [(-1000)%Z]) Disable 2]
  /\ (exists earlier later,
         trace (run (tool_change (H := Rig.rig_header) (C := Rig.std) Rig.config 2 false) w0)
         = (trace w0 ++ earlier
            ++ pickup_events (H := Rig.rig_header) 2
                 (with_current_tool (NO_TOOL (Header := Rig.rig_header)) w0)
            ++ later)%list).
Proof.
  intros w w' w0.
  destruct (take_tool_sequence (C := Rig.std) 2 w) as [Hr [Hc [_ [Ht [_ Hin]]]]].
  split; [ exact Hr | ].
  split; [ exact Hc | ].
  split; [ exact (Ht eq_refl (rig_moves_keep_spindle (Rig.Contact (-20000)) true)) | ].
  exact (Hin Rig.config w0
           (rig_moves_keep_spindle (Rig.Contact (-20000)) true)
           (rig_stops_spindle (Rig.Contact (-20000)))
           (eq_refl true) (eq_refl true) (eq_refl false) (eq_refl false) (eq_refl false)).
Defined.

(** ** Deactivation *)

Section Deactivation.
Context {F : FloatOps} {H : Header} {C : Collaborators}.
Variable cfg : Config.

(** What [deactivate] does after its tool change. *)
Lemma deactivate_after_change (w : World) :
  let w0 := with_logged (logged w ++ [(LogDebug, "Deactivating ATC spindle:")]) w in
  let w1 := run (tool_change cfg 0 false) w0 in
  let height := axis_get (offset (tool w1 (zeroed_tool_index w1))) Z_AXIS in
  let w2 := run (deactivate cfg) w in
  mach w2
  = Spindle_deactivate
      (set_coord_offset (mach w1) (axis_set (coord_offset (gc_state (mach w1))) Z_AXIS height))
  /\ trace w2
     = (trace w1 ++ [mk_obs (EvBase "Spindle::deactivate") (spindle_of w1) (current_tool w1)])%list
  /\ current_tool w2 = current_tool w1
  /\ tool w2 = tool w1.
Proof.
  intros w0 w1 height w2. subst w2 height w1 w0.
  unfold deactivate. rewrite bind_eval. cbv beta. rewrite bind_eval. cbv beta.
  cbn [log_debug log_msg modify snd fst].
  generalize (snd (tool_change cfg 0 false
                     (with_logged (logged w ++ [(LogDebug, "Deactivating ATC spindle:")]) w))).
  intros w1.
  cbn. repeat split; reflexivity.
Qed.

(** The tool change of [deactivate] on the automated path. *)
Lemma deactivate_returns_tool (w : World) :
  engine_moves_keep_spindle ->
  engine_stops_spindle ->
  atc_ok w = true ->
  (current_tool w =? MANUAL_CHG) = false ->
  (0 =? MANUAL_CHG) = false ->
  let w2 := run (deactivate cfg) w in
  current_tool w2 = 0
  /\ ((current_tool w =? NO_TOOL) = false ->
      exists earlier later,
        trace w2
        = (trace w ++ earlier
           ++ return_events (empty_safe_z cfg) (current_tool w) w ++ later)%list).
Proof.
  intros Hmoves Hstops Hok Hcur Hman w2.
  destruct (deactivate_after_change w) as [_ [Ht [Hc _]]].
  fold w2 in Ht, Hc. revert Ht Hc. generalize w2. clear w2. intros w2 Ht Hc.
  assert (Hle : (0 <=? MANUAL_CHG) = true) by (apply N.leb_le, N.le_0_l).
  set (w0 := with_logged (logged w ++ [(LogDebug, "Deactivating ATC spindle:")]) w) in *.
  assert (Hok0 : atc_ok w0 = true) by exact Hok.
  assert (Hcur0 : (current_tool w0 =? MANUAL_CHG) = false) by exact Hcur.
  split.
  { rewrite Hc. exact (automated_path_mounts cfg 0 w0 Hok0 Hle Hcur0 Hman). }
  intros Hno.
  destruct (automated_path_stages cfg 0 w0 Hmoves Hstops Hok0 Hle Hcur0 Hman)
    as [w1 [wr [wp [probed [v [[Hs1 [Hc1 [Htl1 [Htop1 [Hg1 _]]]]]
          [[_ [Ht2 _]] [[_ [Htp _]] [_ [_ [_ [Hg _]]]]]]]]]]]].
  change (current_tool w0) with (current_tool w) in Ht2, Hc1.
  change (tool w0) with (tool w) in Htl1.
  change (top_of_z w0) with (top_of_z w) in Htop1.
  change (trace w0) with (trace w) in Hg1.
  rewrite Hno in Ht2.
  destruct (events_at_entry (current_tool w) (empty_safe_z cfg) w w1 Htl1 Htop1 Hc1)
    as [_ Hev].
  destruct Hg as [later Hlater]. destruct Hg1 as [l1 Hl1].
  rewrite Ht, Hlater, Htp, Ht2, Hl1, Hev.
  exists l1. eexists.
  rewrite <- !app_assoc. reflexivity.
Qed.
End Deactivation.

(** C7 (as the code has it): [deactivate] first runs [tool_change(0,
    false)] and then sets [gc_state.coord_offset[Z]], the G92 offset in Z,
    to [tool[zeroed_tool_index].offset[Z]] as the table has it after that
    change: the measured probe height itself, a machine coordinate.  The
    difference to [coord_system[Z]] is logged only.  Nothing else of the
    machine changes before [Spindle::deactivate] takes over.  The result
    of the tool change is not looked at.  With the latch set and the
    mounted tool not [MANUAL_CHG] (on an engine whose M5 stops the spindle
    and whose M9, moves and dwells leave it alone) the change returns any
    mounted tool: [current_tool] is 0 afterwards, and when a tool was
    mounted the history contains the six events of its return, the holder
    opened at the slot and closed at [_empty_safe_z]. *)
Theorem deactivate_sets_G92_to_probe_height
  {F : FloatOps} {H : Header} {C : Collaborators} (cfg : Config) (w : World) :
  let w0 := with_logged (logged w ++ [(LogDebug, "Deactivating ATC spindle:")]) w in
  let w1 := run (tool_change cfg 0 false) w0 in
  let height := axis_get (offset (tool w1 (zeroed_tool_index w1))) Z_AXIS in
  let w2 := run (deactivate cfg) w in
  mach w2
  = Spindle_deactivate
      (set_coord_offset (mach w1) (axis_set (coord_offset (gc_state (mach w1))) Z_AXIS height))
  /\ trace w2
     = (trace w1 ++ [mk_obs (EvBase "Spindle::deactivate") (spindle_of w1) (current_tool w1)])%list
  /\ current_tool w2 = current_tool w1
  /\ tool w2 = tool w1
  /\ (engine_moves_keep_spindle ->
      engine_stops_spindle ->
      atc_ok w = true ->
      (current_tool w =? MANUAL_CHG) = false ->
      (0 =? MANUAL_CHG) = false ->
      current_tool w2 = 0
      /\ ((current_tool w =? NO_TOOL) = false ->
          exists earlier later,
            trace w2
            = (trace w ++ earlier
               ++ return_events (empty_safe_z cfg) (current_tool w) w ++ later)%list)).
Proof.
  intros w0 w1 height w2.
  destruct (deactivate_after_change cfg w) as [Hm [Ht [Hc Htl]]].
  split; [ exact Hm | ]. split; [ exact Ht | ]. split; [ exact Hc | ].
  split; [ exact Htl | ].
  intros Hmoves Hstops Hok Hcur Hman.
  exact (deactivate_returns_tool cfg w Hmoves Hstops Hok Hcur Hman).
Qed.

Lemma deactivate_sets_G92_to_probe_height_witness :
  let w := Rig.ready 3 1 (-25000)%Z (Rig.machine0 Absolute Cw true false) in
  let w2 := run (deactivate (H := Rig.rig_header) (C := Rig.std) Rig.config) w in
  current_tool w2 = 0
  /\ (exists earlier later,
         trace w2
         = (trace w ++ earlier
            ++ return_events (empty_safe_z Rig.config) (current_tool w) w
            ++ later)%list).
Proof.
  intros w w2.
  destruct (deactivate_sets_G92_to_probe_height (H := Rig.rig_header) (C := Rig.std)
              Rig.config w) as [_ [_ [_ [_ Hret]]]].
  destruct (Hret (rig_moves_keep_spindle (Rig.Contact (-20000)) true)
                 (rig_stops_spindle (Rig.Contact (-20000)))
                 (eq_refl true) (eq_refl false) (eq_refl false)) as [Hc Hev].
  split; [ exact Hc | exact (Hev (eq_refl false)) ].
Defined.

(** The claim as it stands fails twice.  The value is not the probe
    height relative to the work coordinate system: with the reference
    tool measured at -25 mm and a work offset of -40 mm in Z, G92 Z
    becomes -25 mm, not the 15 mm between them.  And the tool is not
    returned in every state: after a change to [MANUAL_CHG], with the
    spindle running, the tool change of [deactivate] is refused, nothing
    moves, the holder is not touched and [current_tool] stays
    [MANUAL_CHG]. *)
Lemma deactivate_G92_absolute_and_return_conditional :
  (let w := Rig.ready 1 1 (-25000)%Z (Rig.machine0 Absolute Disable false false) in
   let w2 := run (deactivate (C := Rig.std) Rig.config) w in
   let height := axis_get (offset (tool w2 (zeroed_tool_index w2))) Z_AXIS in
   let surface := axis_get (coord_system (gc_state (mach w2))) Z_AXIS in
   height = (-25000)%Z
   /\ surface = (-40000)%Z
   /\ axis_get (coord_offset (gc_state (mach w2))) Z_AXIS = (-25000)%Z
   /\ axis_get (coord_offset (gc_state (mach w2))) Z_AXIS <> fsub height surface)
  /\ (let w := run_ops (H := Rig.rig_header) (C := Rig.std) Rig.config
                 [OpInit; OpToolChange 5 false;
                  OpEnvironment (fun m => Rig.set_spindle m Cw)]
                 (Rig.power_on (Rig.machine0 Absolute Disable false false)) in
      let w2 := run (deactivate (C := Rig.std) Rig.config) w in
      current_tool w = 5
      /\ current_tool w2 = 5
      /\ valve_writes (trace w2) = valve_writes (trace w)
      /\ map ev (trace w2)
         = (map ev (trace w) ++ [EvSync; EvBase "Spindle::deactivate"])%list).
Proof.
  vm_compute. repeat split. discriminate.
Qed.
